(** * Phishing-analysis page script: embedding of [static/js/script.js]

    The script wires one form to two functions: [analyzeEmail], which
    posts the text of the form to [/analyze] and handles the reply, and
    [displayResults], which renders the analysis into the results card.

    Modelling decisions.
    - JavaScript strings are Rocq [string]s holding the UTF-8 bytes of the
      text; concatenation and emptiness agree with the JavaScript
      operations on well-formed text.
    - A parsed JSON body is a [value]; property reads, conversions to
      string and the [> 0] comparison follow ECMAScript on such values,
      which carry no callable property and have the built-in prototypes.
    - Built-ins whose definition lives in the engine (number printing and
      parsing, [trim], [toLowerCase], the quoting of [JSON.stringify], the
      text of a [TypeError]) are the fields of the class [Engine]; the
      statements hold for every engine.
    - The page is a record [DOM] of the properties the script touches;
      the five elements it looks up exist.  Every write, notification and
      request is also appended to a trace, so that statements about order
      and number of effects can be made.
    - [await] is a call into the environment: the network is a function
      from the request to a settled outcome (the promise of [fetch]
      rejects, or resolves with a response whose [json()] rejects or
      resolves).  A request that never settles, and other handlers running
      while one is awaited, are outside the model.  *)

From Stdlib Require Import String Ascii List Bool ZArith Lia DecimalString.
Import ListNotations.
Local Open Scope string_scope.
Set Warnings "-register-all".

(** ** Engine interface *)

(** The places where the script can make the engine raise a [TypeError]. *)
Inductive type_error : Type :=
| NullishProperty (prop : string)   (* reading [prop] of undefined or null *)
| NullishDestructure                (* destructuring undefined or null *)
| NotCallable (prop : string)       (* calling [x.prop] which is no function *)
| NoPrimitive.                      (* an object with no usable toString/valueOf *)

Class Engine : Type := {
  number : Type;                               (* the Number type *)
  Number_toString : number -> string;          (* Number::toString, radix 10 *)
  Number_toBoolean : number -> bool;           (* false on 0, -0 and NaN *)
  Number_positive : number -> bool;            (* [0 < n]; false on NaN *)
  StringToNumber : string -> number;
  String_trim : string -> string;              (* String.prototype.trim *)
  String_toLowerCase : string -> string;       (* String.prototype.toLowerCase *)
  QuoteJSONString : string -> string;          (* JSON.stringify on a string *)
  TypeError_message : type_error -> string     (* engine-specific wording *)
}.

(** An error object, as far as the script looks at it. *)
Record Error : Type := { name : string; message : string }.

(** Completion of an evaluation: a value, or a thrown error. *)
Inductive completion (A : Type) : Type :=
| Normal (a : A)
| Throw (e : Error).
Arguments Normal {A} a.
Arguments Throw {A} e.

Definition bindC {A B} (c : completion A) (k : A -> completion B) : completion B :=
  match c with
  | Normal a => k a
  | Throw e => Throw e
  end.

Notation "x <~ c ;; k" := (bindC c (fun x => k))
  (at level 61, c at next level, right associativity).

Fixpoint mapC {A B} (f : A -> completion B) (l : list A) : completion (list B) :=
  match l with
  | [] => Normal []
  | x :: rest => y <~ f x ;; ys <~ mapC f rest ;; Normal (y :: ys)
  end.

Definition dq : string := String (ascii_of_nat 34) EmptyString.


(** ** The markup of the results card

    The static pieces of the template literals of [displayResults], cut at
    the interpolations, with the line breaks and indentation of the
    script.  [body_part_0] .. [body_part_9] are the pieces of the outer
    template, [keywords_part_*] and [urls_part_*] those of the two optional
    blocks, [badge_part_*] and [item_part_*] those of one keyword badge and
    of one URL list item. *)

Definition body_part_0 : string :=
  "
            <div class=" ++ dq ++ "alert ".

Definition body_part_1 : string :=
  " risk-".

Definition body_part_2 : string :=
  dq ++ " role=" ++ dq ++ "alert" ++ dq ++ ">
                <h4 class=" ++ dq ++ "alert-heading" ++ dq ++ ">".

Definition body_part_3 : string :=
  " Nivel de Riesgo: ".

Definition body_part_4 : string :=
  "</h4>
                <p><strong>Puntuación de riesgo:</strong> ".

Definition body_part_5 : string :=
  " puntos</p>
                <hr>
                <p class=" ++ dq ++ "mb-0" ++ dq ++ "><strong>Recomendación:</strong> ".

Definition body_part_6 : string :=
  "</p>
            </div>

            ".

Definition body_part_7 : string :=
  "

            ".

Definition body_part_8 : string :=
  "

            <div class=" ++ dq ++ "mt-3" ++ dq ++ ">
                <small class=" ++ dq ++ "text-muted" ++ dq ++ ">
                    📈 Total de URLs encontradas: ".

Definition body_part_9 : string :=
  " | 
                    🛡️ Análisis realizado con éxito
                </small>
            </div>
        ".

Definition keywords_part_0 : string :=
  "
                <div class=" ++ dq ++ "mt-3" ++ dq ++ ">
                    <h6>🔍 Palabras clave sospechosas detectadas:</h6>
                    <div class=" ++ dq ++ "d-flex flex-wrap gap-2" ++ dq ++ ">
                        ".

Definition keywords_part_1 : string :=
  "
                    </div>
                </div>
            ".

Definition badge_part_0 : string :=
  "
                            <span class=" ++ dq ++ "badge bg-warning text-dark" ++ dq ++ ">".

Definition badge_part_1 : string :=
  "</span>
                        ".

Definition urls_part_0 : string :=
  "
                <div class=" ++ dq ++ "mt-3" ++ dq ++ ">
                    <h6>🔗 URLs sospechosas encontradas:</h6>
                    <ul class=" ++ dq ++ "list-group" ++ dq ++ ">
                        ".

Definition urls_part_1 : string :=
  "
                    </ul>
                </div>
            ".

Definition item_part_0 : string :=
  "
                            <li class=" ++ dq ++ "list-group-item list-group-item-warning" ++ dq ++ ">
                                <code>".

Definition item_part_1 : string :=
  "</code>
                            </li>
                        ".

Section Script.
Context {E : Engine}.

Definition TypeError (t : type_error) : Error :=
  {| name := "TypeError"; message := TypeError_message t |}.

(** [new Error(msg)] *)
Definition new_Error (msg : string) : Error :=
  {| name := "Error"; message := msg |}.

(** ** Values *)

(** What [JSON.parse] can build, plus [undefined] for absent properties.
    An object lists its own properties in the order of the JSON text. *)
Inductive value : Type :=
| VUndefined
| VNull
| VBool (b : bool)
| VNumber (n : number)
| VString (s : string)
| VArray (elems : list value)
| VObject (props : list (string * value)).

(** Own property [k] of a parsed object; of duplicate keys the last one
    stays, as in [JSON.parse]. *)
Fixpoint own_property (k : string) (props : list (string * value)) : option value :=
  match props with
  | [] => None
  | (k', v) :: rest =>
      match own_property k rest with
      | Some w => Some w
      | None => if String.eqb k k' then Some v else None
      end
  end.

(** [x.k] for the property names the script reads from the response
    ([error], [analysis] and the six fields of the analysis): none of them
    is on a built-in prototype, so only an object can have them. *)
Definition get (x : value) (k : string) : completion value :=
  match x with
  | VUndefined | VNull => Throw (TypeError (NullishProperty k))
  | VObject props =>
      match own_property k props with
      | Some v => Normal v
      | None => Normal VUndefined
      end
  | _ => Normal VUndefined
  end.

Definition ToBoolean (x : value) : bool :=
  match x with
  | VUndefined | VNull => false
  | VBool b => b
  | VNumber n => Number_toBoolean n
  | VString s => negb (String.eqb s EmptyString)
  | VArray _ | VObject _ => true
  end.

(** [ToString]: what a template literal and [new Error] apply to a value.
    An array joins its elements with a comma, printing undefined and null
    as nothing.  A parsed object has no callable property of its own, so
    it prints through [Object.prototype.toString] unless an own
    [toString] property hides it, in which case no primitive is found. *)
Fixpoint ToString (x : value) : completion string :=
  match x with
  | VUndefined => Normal "undefined"
  | VNull => Normal "null"
  | VBool true => Normal "true"
  | VBool false => Normal "false"
  | VNumber n => Normal (Number_toString n)
  | VString s => Normal s
  | VArray elems =>
      let fix each (l : list value) : completion (list string) :=
        match l with
        | [] => Normal []
        | y :: rest =>
            s <~ match y with
                 | VUndefined | VNull => Normal EmptyString
                 | _ => ToString y
                 end ;;
            ss <~ each rest ;;
            Normal (s :: ss)
        end in
      ss <~ each elems ;;
      Normal (String.concat "," ss)
  | VObject props =>
      match own_property "toString" props with
      | Some _ => Throw (TypeError NoPrimitive)
      | None => Normal "[object Object]"
      end
  end.

(** [x > 0]: the operand is made primitive (an array or object through
    its string form), then numeric, then compared. *)
Definition gt_zero (x : value) : completion bool :=
  match x with
  | VUndefined | VNull => Normal false
  | VBool b => Normal b
  | VNumber n => Normal (Number_positive n)
  | VString s => Normal (Number_positive (StringToNumber s))
  | VArray _ | VObject _ =>
      s <~ ToString x ;;
      Normal (Number_positive (StringToNumber s))
  end.

(** [x.length > 0] *)
Definition length_gt_zero (x : value) : completion bool :=
  match x with
  | VUndefined | VNull => Throw (TypeError (NullishProperty "length"))
  | VBool _ | VNumber _ => Normal false
  | VString s => Normal (negb (String.eqb s EmptyString))
  | VArray elems => Normal (Nat.ltb 0 (List.length elems))
  | VObject props =>
      match own_property "length" props with
      | Some v => gt_zero v
      | None => Normal false
      end
  end.

(** [x.map(f)], reached only after [x.length > 0] held; [f] returns a
    string here.  Only an array has a callable [map]. *)
Definition call_map (x : value) (f : value -> completion string)
  : completion (list string) :=
  match x with
  | VUndefined | VNull => Throw (TypeError (NullishProperty "map"))
  | VArray elems => mapC f elems
  | _ => Throw (TypeError (NotCallable "map"))
  end.

(** [x.toLowerCase()] *)
Definition call_toLowerCase (x : value) : completion string :=
  match x with
  | VUndefined | VNull => Throw (TypeError (NullishProperty "toLowerCase"))
  | VString s => Normal (String_toLowerCase s)
  | _ => Throw (TypeError (NotCallable "toLowerCase"))
  end.

(** ** The page and the effects of the script *)

(** The properties of the five elements the script reads or writes:
    [emailContent.value], [analyzeBtn.innerHTML], [analyzeBtn.disabled],
    [results.style.display], [resultsHeader.className] and
    [resultsBody.innerHTML] (kept as the string last assigned). *)
Record DOM : Type := {
  emailContent_value : string;
  analyzeBtn_innerHTML : string;
  analyzeBtn_disabled : bool;
  results_style_display : string;
  resultsHeader_className : string;
  resultsBody_innerHTML : string
}.

Inductive assignment : Type :=
| Set_analyzeBtn_innerHTML (s : string)
| Set_analyzeBtn_disabled (b : bool)
| Set_results_style_display (s : string)
| Set_resultsHeader_className (s : string)
| Set_resultsBody_innerHTML (s : string).

Definition assign (a : assignment) (d : DOM) : DOM :=
  match a with
  | Set_analyzeBtn_innerHTML s =>
      {| emailContent_value := emailContent_value d;
         analyzeBtn_innerHTML := s;
         analyzeBtn_disabled := analyzeBtn_disabled d;
         results_style_display := results_style_display d;
         resultsHeader_className := resultsHeader_className d;
         resultsBody_innerHTML := resultsBody_innerHTML d |}
  | Set_analyzeBtn_disabled b =>
      {| emailContent_value := emailContent_value d;
         analyzeBtn_innerHTML := analyzeBtn_innerHTML d;
         analyzeBtn_disabled := b;
         results_style_display := results_style_display d;
         resultsHeader_className := resultsHeader_className d;
         resultsBody_innerHTML := resultsBody_innerHTML d |}
  | Set_results_style_display s =>
      {| emailContent_value := emailContent_value d;
         analyzeBtn_innerHTML := analyzeBtn_innerHTML d;
         analyzeBtn_disabled := analyzeBtn_disabled d;
         results_style_display := s;
         resultsHeader_className := resultsHeader_className d;
         resultsBody_innerHTML := resultsBody_innerHTML d |}
  | Set_resultsHeader_className s =>
      {| emailContent_value := emailContent_value d;
         analyzeBtn_innerHTML := analyzeBtn_innerHTML d;
         analyzeBtn_disabled := analyzeBtn_disabled d;
         results_style_display := results_style_display d;
         resultsHeader_className := s;
         resultsBody_innerHTML := resultsBody_innerHTML d |}
  | Set_resultsBody_innerHTML s =>
      {| emailContent_value := emailContent_value d;
         analyzeBtn_innerHTML := analyzeBtn_innerHTML d;
         analyzeBtn_disabled := analyzeBtn_disabled d;
         results_style_display := results_style_display d;
         resultsHeader_className := resultsHeader_className d;
         resultsBody_innerHTML := s |}
  end.

(** The second argument of [fetch]. *)
Record RequestInit : Type := {
  method : string;
  headers : list (string * string);
  body : string
}.

(** What the script does to the outside, in the order it does it. *)
Inductive event : Type :=
| Assign (a : assignment)
| Alert (msg : string)
| ConsoleError (label : string) (e : Error)
| Fetch (url : string) (init : RequestInit)
| ResponseJson
| ScrollIntoView (behavior : string).

Record World : Type := { dom : DOM; trace : list event }.

(** The reply to [fetch]: the promise rejects, or it resolves with a
    response whose [json()] rejects or resolves with the parsed body. *)
Record Response : Type := { json : completion value }.
Definition Network : Type := string -> RequestInit -> completion Response.

(** Statements of the script: a world in, a completion and a world out. *)
Definition M (A : Type) : Type := World -> completion A * World.

Definition ret {A} (a : A) : M A := fun w => (Normal a, w).

Definition throw {A} (e : Error) : M A := fun w => (Throw e, w).

Definition bind {A B} (m : M A) (k : A -> M B) : M B :=
  fun w =>
    match m w with
    | (Normal a, w') => k a w'
    | (Throw e, w') => (Throw e, w')
    end.

Definition lift {A} (c : completion A) : M A := fun w => (c, w).

(** One effect on the world: an assignment changes the page, and every
    effect is recorded. *)
Definition perform (ev : event) (w : World) : World :=
  {| dom := match ev with
            | Assign a => assign a (dom w)
            | _ => dom w
            end;
     trace := (trace w ++ [ev])%list |}.

Definition emit (ev : event) : M unit := fun w => (Normal tt, perform ev w).

Definition write (a : assignment) : M unit := emit (Assign a).

Definition read {A} (f : DOM -> A) : M A := fun w => (Normal (f (dom w)), w).

(** [try { body } catch (error) { handler } finally { finalizer }] *)
Definition try_catch_finally {A} (body : M A) (handler : Error -> M A)
    (finalizer : M unit) : M A :=
  fun w =>
    let '(r1, w1) := match body w with
                     | (Normal a, w') => (Normal a, w')
                     | (Throw e, w') => handler e w'
                     end in
    match finalizer w1 with
    | (Normal _, w2) => (r1, w2)
    | (Throw e, w2) => (Throw e, w2)
    end.

Notation "x <- c ;; k" := (bind c (fun x => k))
  (at level 61, c at next level, right associativity).
Notation "' pat <- c ;; k" := (bind c (fun pat => k))
  (at level 61, pat pattern, c at next level, right associativity).
Notation "c ;; k" := (bind c (fun _ => k))
  (at level 61, right associativity).

(** [fetch(url, init)], awaited *)
Definition fetch (net : Network) (url : string) (init : RequestInit) : M Response :=
  emit (Fetch url init) ;; lift (net url init).

(** [response.json()], awaited *)
Definition response_json (response : Response) : M value :=
  emit ResponseJson ;; lift (json response).

(** [JSON.stringify({ email_content: emailContent })] *)
Definition stringify_request (emailContent : string) : string :=
  "{" ++ dq ++ "email_content" ++ dq ++ ":" ++ QuoteJSONString emailContent ++ "}".

(** ** [displayResults] *)

(** [const { risk_level, risk_color, score, detected_keywords,
    suspicious_urls, total_urls } = analysis] *)
Definition destructure (analysis : value)
  : completion (value * value * value * value * value * value) :=
  match analysis with
  | VUndefined | VNull => Throw (TypeError NullishDestructure)
  | _ =>
      risk_level <~ get analysis "risk_level" ;;
      risk_color <~ get analysis "risk_color" ;;
      score <~ get analysis "score" ;;
      detected_keywords <~ get analysis "detected_keywords" ;;
      suspicious_urls <~ get analysis "suspicious_urls" ;;
      total_urls <~ get analysis "total_urls" ;;
      Normal (risk_level, risk_color, score, detected_keywords, suspicious_urls, total_urls)
  end.

(** [x === s] for a string literal [s], the test of a [case] label *)
Definition strict_equals (x : value) (s : string) : bool :=
  match x with
  | VString t => String.eqb t s
  | _ => false
  end.

(** The [switch (risk_level)]: the values it leaves in [alertClass],
    [riskIcon] and [recommendation]. *)
Definition switch_risk_level (risk_level : value) : string * string * string :=
  if strict_equals risk_level "ALTO" then
    ("alert-danger", "🚨",
     "NO interactúes con este correo. Es muy probable que sea phishing.")
  else if strict_equals risk_level "MEDIO" then
    ("alert-warning", "⚠️",
     "Ten precaución. Verifica la fuente antes de realizar cualquier acción.")
  else
    ("alert-success", "✅",
     "El correo parece seguro, pero siempre mantén precaución.").

(** The arrow function mapped over [detected_keywords] *)
Definition keyword_badge (keyword : value) : completion string :=
  k <~ ToString keyword ;;
  Normal (badge_part_0 ++ k ++ badge_part_1).

(** The arrow function mapped over [suspicious_urls] *)
Definition url_item (url : value) : completion string :=
  u <~ ToString url ;;
  Normal (item_part_0 ++ u ++ item_part_1).

(** [detected_keywords.length > 0 ? `...` : ''] *)
Definition keywords_block (detected_keywords : value) : completion string :=
  nonempty <~ length_gt_zero detected_keywords ;;
  if nonempty : bool then
    badges <~ call_map detected_keywords keyword_badge ;;
    Normal (keywords_part_0 ++ String.concat EmptyString badges ++ keywords_part_1)
  else Normal EmptyString.

(** [suspicious_urls.length > 0 ? `...` : ''] *)
Definition urls_block (suspicious_urls : value) : completion string :=
  nonempty <~ length_gt_zero suspicious_urls ;;
  if nonempty : bool then
    items <~ call_map suspicious_urls url_item ;;
    Normal (urls_part_0 ++ String.concat EmptyString items ++ urls_part_1)
  else Normal EmptyString.

(** The template literal assigned to [resultsBody.innerHTML]; the
    interpolations are evaluated and converted from left to right. *)
Definition body_markup (alertClass riskIcon recommendation : string)
    (risk_level score detected_keywords suspicious_urls total_urls : value)
  : completion string :=
  lower <~ call_toLowerCase risk_level ;;
  level <~ ToString risk_level ;;
  points <~ ToString score ;;
  keywords <~ keywords_block detected_keywords ;;
  urls <~ urls_block suspicious_urls ;;
  total <~ ToString total_urls ;;
  Normal (body_part_0 ++ alertClass ++ body_part_1 ++ lower ++ body_part_2
          ++ riskIcon ++ body_part_3 ++ level ++ body_part_4 ++ points
          ++ body_part_5 ++ recommendation ++ body_part_6 ++ keywords
          ++ body_part_7 ++ urls ++ body_part_8 ++ total ++ body_part_9).

(** [`card-header bg-${risk_color} text-white`] *)
Definition header_className (risk_color : value) : completion string :=
  color <~ ToString risk_color ;;
  Normal ("card-header bg-" ++ color ++ " text-white").

Definition displayResults (analysis : value) : M unit :=
  ' (risk_level, risk_color, score, detected_keywords, suspicious_urls, total_urls)
    <- lift (destructure analysis) ;;
  className <- lift (header_className risk_color) ;;
  write (Set_resultsHeader_className className) ;;
  let '(alertClass, riskIcon, recommendation) := switch_risk_level risk_level in
  innerHTML <- lift (body_markup alertClass riskIcon recommendation
                       risk_level score detected_keywords suspicious_urls total_urls) ;;
  write (Set_resultsBody_innerHTML innerHTML) ;;
  write (Set_results_style_display "block") ;;
  emit (ScrollIntoView "smooth").

(** ** [analyzeEmail] *)

Definition empty_prompt : string :=
  "Por favor, ingresa el contenido del correo electrónico".

Definition error_prefix : string := "Error al analizar el correo: ".

Definition loading_label : string := "⏳ Analizando...".

Definition idle_label : string := "🔍 Analizar Correo".

Definition analyze_request (emailContent : string) : RequestInit :=
  {| method := "POST";
     headers := [("Content-Type", "application/json")];
     body := stringify_request emailContent |}.

(** The [try] block *)
Definition request_and_display (net : Network) (emailContent : string) : M unit :=
  response <- fetch net "/analyze" (analyze_request emailContent) ;;
  data <- response_json response ;;
  error <- lift (get data "error") ;;
  (if ToBoolean error then
     msg <- lift (ToString error) ;;
     throw (new_Error msg)
   else ret tt) ;;
  analysis <- lift (get data "analysis") ;;
  displayResults analysis.

(** The [catch (error)] block *)
Definition report (error : Error) : M unit :=
  emit (ConsoleError "Error:" error) ;;
  emit (Alert (error_prefix ++ message error)).

(** The [finally] block *)
Definition restore_button : M unit :=
  write (Set_analyzeBtn_innerHTML idle_label) ;;
  write (Set_analyzeBtn_disabled false).

Definition analyzeEmail (net : Network) : M unit :=
  emailContent <- read (fun d => String_trim (emailContent_value d)) ;;
  if String.eqb emailContent EmptyString then
    emit (Alert empty_prompt)
  else
    write (Set_analyzeBtn_innerHTML loading_label) ;;
    write (Set_analyzeBtn_disabled true) ;;
    write (Set_results_style_display "none") ;;
    try_catch_finally (request_and_display net emailContent) report restore_button.

(** ** Vocabulary of the statements *)

(** The world after a sequence of effects. *)
Definition after (evs : list event) (w : World) : World :=
  fold_left (fun w' ev => perform ev w') evs w.

(** The analysis as the wire contract types it. *)
Record AnalysisResult : Type := {
  risk_level : string;
  risk_color : string;
  score : number;
  detected_keywords : list string;
  suspicious_urls : list string;
  total_urls : number
}.

(** The parsed JSON object of an analysis. *)
Definition analysis_value (a : AnalysisResult) : value :=
  VObject [("risk_level", VString (risk_level a));
           ("risk_color", VString (risk_color a));
           ("score", VNumber (score a));
           ("detected_keywords", VArray (map VString (detected_keywords a)));
           ("suspicious_urls", VArray (map VString (suspicious_urls a)));
           ("total_urls", VNumber (total_urls a))].

(** A network that answers every request with the parsed body [data]. *)
Definition replies (data : value) : Network :=
  fun _ _ => Normal {| json := Normal data |}.

(** The events that make up the loading indicator and the request. *)
Definition touches_button (ev : event) : bool :=
  match ev with
  | Assign (Set_analyzeBtn_innerHTML _) | Assign (Set_analyzeBtn_disabled _) => true
  | _ => false
  end.

Definition is_fetch (ev : event) : bool :=
  match ev with
  | Fetch _ _ => true
  | _ => false
  end.

Definition touches_results (ev : event) : bool :=
  match ev with
  | Assign (Set_results_style_display _) | Assign (Set_resultsBody_innerHTML _) => true
  | _ => false
  end.

(** [x] is an object with an own property [k]. *)
Definition has_property (x : value) (k : string) : bool :=
  match x with
  | VObject props =>
      match own_property k props with
      | Some _ => true
      | None => false
      end
  | _ => false
  end.

(** The value of [x.k] when reading it does not throw, else undefined. *)
Definition property (x : value) (k : string) : value :=
  match get x k with
  | Normal v => v
  | Throw _ => VUndefined
  end.

Definition is_string (x : value) : bool :=
  match x with
  | VString _ => true
  | _ => false
  end.

Definition is_nullish (x : value) : bool :=
  match x with
  | VUndefined | VNull => true
  | _ => false
  end.

(** An analysis the renderer can get through: an object whose
    [risk_level] is a string and whose two evidence fields are there. *)
Definition usable_analysis (x : value) : bool :=
  match x with
  | VObject _ =>
      is_string (property x "risk_level")
      && negb (is_nullish (property x "detected_keywords"))
      && negb (is_nullish (property x "suspicious_urls"))
  | _ => false
  end.

(** The classification table of the specification, in the locale of the
    script: the tier names are [ALTO] and [MEDIO], the recommendations
    are the Spanish sentences.  Any value that is neither of the two
    names, string or not, is in the default row. *)
Inductive tier : Type := HIGH | MEDIUM | OTHER.

Inductive alert_style : Type := danger | warning | success.

Record presentation : Type := {
  alertStyle : alert_style;
  icon : string;
  recommendation : string
}.

Definition tier_of (level : value) : tier :=
  match level with
  | VString s =>
      if string_dec s "ALTO" then HIGH
      else if string_dec s "MEDIO" then MEDIUM
      else OTHER
  | _ => OTHER
  end.

Definition presentation_table (t : tier) : presentation :=
  match t with
  | HIGH =>
      {| alertStyle := danger; icon := "🚨";
         recommendation :=
           "NO interactúes con este correo. Es muy probable que sea phishing." |}
  | MEDIUM =>
      {| alertStyle := warning; icon := "⚠️";
         recommendation :=
           "Ten precaución. Verifica la fuente antes de realizar cualquier acción." |}
  | OTHER =>
      {| alertStyle := success; icon := "✅";
         recommendation :=
           "El correo parece seguro, pero siempre mantén precaución." |}
  end.

Definition alert_class (st : alert_style) : string :=
  match st with
  | danger => "alert-danger"
  | warning => "alert-warning"
  | success => "alert-success"
  end.

(** Closed form of what [displayResults] assigns to
    [resultsBody.innerHTML] for an [analysis_value] (lemma
    [displayResults_analysis]): the alert, the two optional blocks, the
    footer. *)
Definition badge (keyword : string) : string :=
  badge_part_0 ++ keyword ++ badge_part_1.

Definition item (url : string) : string :=
  item_part_0 ++ url ++ item_part_1.

Definition block (opening closing : string) (entries : list string) : string :=
  match entries with
  | [] => EmptyString
  | _ => opening ++ String.concat EmptyString entries ++ closing
  end.

Definition alert_markup (alertClass riskIcon recommendation : string)
    (a : AnalysisResult) : string :=
  body_part_0 ++ alertClass ++ body_part_1 ++ String_toLowerCase (risk_level a)
  ++ body_part_2 ++ riskIcon ++ body_part_3 ++ risk_level a ++ body_part_4
  ++ Number_toString (score a) ++ body_part_5 ++ recommendation ++ body_part_6.

Definition footer_markup (a : AnalysisResult) : string :=
  body_part_8 ++ Number_toString (total_urls a) ++ body_part_9.

Definition alert_of (a : AnalysisResult) : string :=
  let '(alertClass, riskIcon, recommendation) :=
    switch_risk_level (VString (risk_level a)) in
  alert_markup alertClass riskIcon recommendation a.

Definition analysis_markup (a : AnalysisResult) : string :=
  alert_of a
  ++ block keywords_part_0 keywords_part_1 (map badge (detected_keywords a))
  ++ body_part_7
  ++ block urls_part_0 urls_part_1 (map item (suspicious_urls a))
  ++ footer_markup a.

(** The same analysis with another URL count. *)
Definition with_total_urls (a : AnalysisResult) (n : number) : AnalysisResult :=
  {| risk_level := risk_level a;
     risk_color := risk_color a;
     score := score a;
     detected_keywords := detected_keywords a;
     suspicious_urls := suspicious_urls a;
     total_urls := n |}.

(** The effects of a completed [displayResults] on an analysis. *)
Definition display_events (a : AnalysisResult) : list event :=
  [Assign (Set_resultsHeader_className
             ("card-header bg-" ++ risk_color a ++ " text-white"));
   Assign (Set_resultsBody_innerHTML (analysis_markup a));
   Assign (Set_results_style_display "block");
   ScrollIntoView "smooth"].

(** The effects of [analyzeEmail] on a non-empty text, by phase: before
    the request, the request, a completed [try] block, the [catch] block,
    the [finally] block. *)
Definition start_events : list event :=
  [Assign (Set_analyzeBtn_innerHTML loading_label);
   Assign (Set_analyzeBtn_disabled true);
   Assign (Set_results_style_display "none")].

Definition request_event (emailContent : string) : event :=
  Fetch "/analyze" (analyze_request emailContent).

Definition shown_events (className innerHTML : string) : list event :=
  [ResponseJson;
   Assign (Set_resultsHeader_className className);
   Assign (Set_resultsBody_innerHTML innerHTML);
   Assign (Set_results_style_display "block");
   ScrollIntoView "smooth"].

Definition report_events (error : Error) : list event :=
  [ConsoleError "Error:" error; Alert (error_prefix ++ message error)].

Definition finish_events : list event :=
  [Assign (Set_analyzeBtn_innerHTML idle_label);
   Assign (Set_analyzeBtn_disabled false)].

(** What a [try] block that throws has done after the request: nothing,
    or read the body, or read the body and set the header class. *)
Inductive partial_events : list event -> Prop :=
| before_response : partial_events []
| before_display : partial_events [ResponseJson]
| header_only (className : string) :
    partial_events [ResponseJson; Assign (Set_resultsHeader_className className)].

(** A computation that, when it throws, throws a [TypeError] of the
    engine. *)
Definition raises_TypeError {A} (c : completion A) : Prop :=
  forall e, c = Throw e -> name e = "TypeError".

Definition is_alert (ev : event) : bool :=
  match ev with
  | Alert _ => true
  | _ => false
  end.

(** The trimmed text of the form. *)
Definition trimmed_text (w : World) : string :=
  String_trim (emailContent_value (dom w)).

(** ** The submit listener and sessions *)

(** The submit event, as far as the listener touches it. *)
Record SubmitEvent : Type := { cancelable : bool; defaultPrevented : bool }.

(** [e.preventDefault()]: the event is cancelled when it can be. *)
Definition preventDefault (e : SubmitEvent) : SubmitEvent :=
  {| cancelable := cancelable e;
     defaultPrevented := (cancelable e || defaultPrevented e)%bool |}.

(** [function(e) { e.preventDefault(); analyzeEmail(); }]: the promise
    of [analyzeEmail] is not awaited, so however it settles the listener
    returns normally. *)
Definition submit_listener (net : Network) (e : SubmitEvent) : M SubmitEvent :=
  fun w =>
    let e' := preventDefault e in
    let '(_, w') := analyzeEmail net w in
    (Normal e', w').

(** The user types into the form: the one change of the page that does
    not come from the script. *)
Definition set_emailContent_value (text : string) (d : DOM) : DOM :=
  {| emailContent_value := text;
     analyzeBtn_innerHTML := analyzeBtn_innerHTML d;
     analyzeBtn_disabled := analyzeBtn_disabled d;
     results_style_display := results_style_display d;
     resultsHeader_className := resultsHeader_className d;
     resultsBody_innerHTML := resultsBody_innerHTML d |}.

(** What happens on the page over time: the user types a text, or
    submits the form while the network answers as [net]. *)
Inductive action : Type :=
| Type_text (text : string)
| Submit (net : Network).

Definition act (a : action) (w : World) : World :=
  match a with
  | Type_text text =>
      {| dom := set_emailContent_value text (dom w); trace := trace w |}
  | Submit net =>
      snd (submit_listener net {| cancelable := true; defaultPrevented := false |} w)
  end.

Definition session (actions : list action) (w : World) : World :=
  fold_left (fun w' a => act a w') actions w.

Definition is_submit (a : action) : bool :=
  match a with
  | Submit _ => true
  | Type_text _ => false
  end.

(** The button at rest. *)
Definition button_idle (d : DOM) : Prop :=
  analyzeBtn_innerHTML d = idle_label /\ analyzeBtn_disabled d = false.

(** ** More vocabulary *)

Definition is_normal {A} (c : completion A) : bool :=
  match c with
  | Normal _ => true
  | Throw _ => false
  end.

(** The values [ToString] can print: everything but an object that
    hides [toString], alone or as an element of an array. *)
Fixpoint printable (x : value) : bool :=
  match x with
  | VArray elems => forallb printable elems
  | VObject props =>
      match own_property "toString" props with
      | Some _ => false
      | None => true
      end
  | _ => true
  end.

(** The shapes of a run of [analyzeEmail] on a page whose trimmed text
    is [text]: the prompt, the results shown, or an error reported. *)
Inductive run_shape (text : string) : list event -> Prop :=
| run_prompt :
    text = EmptyString -> run_shape text [Alert empty_prompt]
| run_shown (className innerHTML : string) :
    text <> EmptyString ->
    run_shape text (start_events ++ request_event text
                    :: shown_events className innerHTML ++ finish_events)
| run_reported (e : Error) (pre : list event) :
    text <> EmptyString ->
    partial_events pre ->
    run_shape text (start_events ++ request_event text
                    :: pre ++ report_events e ++ finish_events).

Definition writes_body (ev : event) : bool :=
  match ev with
  | Assign (Set_resultsBody_innerHTML _) => true
  | _ => false
  end.

End Script.

(** ** A small engine for running the script

    Numbers are the integers and NaN, strings are ASCII.  It serves the
    examples below, whose inputs stay inside that range. *)
Module SmallEngine.

Definition is_space (c : ascii) : bool :=
  let n := nat_of_ascii c in
  (Nat.eqb n 32 || (Nat.leb 9 n && Nat.leb n 13))%bool.

Fixpoint trim_start (s : string) : string :=
  match s with
  | EmptyString => EmptyString
  | String c rest => if is_space c then trim_start rest else s
  end.

Definition reverse (s : string) : string :=
  string_of_list_ascii (rev (list_ascii_of_string s)).

Definition trim (s : string) : string :=
  reverse (trim_start (reverse (trim_start s))).

Definition lower (c : ascii) : ascii :=
  let n := nat_of_ascii c in
  if (Nat.leb 65 n && Nat.leb n 90)%bool then ascii_of_nat (n + 32) else c.

Fixpoint toLowerCase (s : string) : string :=
  match s with
  | EmptyString => EmptyString
  | String c rest => String (lower c) (toLowerCase rest)
  end.

Definition backslash : string := String (ascii_of_nat 92) EmptyString.

(** Quotes and backslashes are escaped; the examples carry no control
    characters. *)
Fixpoint escape (s : string) : string :=
  match s with
  | EmptyString => EmptyString
  | String c rest =>
      let n := nat_of_ascii c in
      if (Nat.eqb n 34 || Nat.eqb n 92)%bool
      then backslash ++ String c (escape rest)
      else String c (escape rest)
  end.

Definition quote (s : string) : string := dq ++ escape s ++ dq.

Definition print (n : option Z) : string :=
  match n with
  | Some z => NilZero.string_of_int (Z.to_int z)
  | None => "NaN"
  end.

Definition truthy (n : option Z) : bool :=
  match n with
  | Some z => negb (Z.eqb z 0)
  | None => false
  end.

Definition positive (n : option Z) : bool :=
  match n with
  | Some z => Z.ltb 0 z
  | None => false
  end.

(** Plain decimal integers; anything else is NaN here. *)
Definition read (s : string) : option Z :=
  match trim s with
  | EmptyString => Some 0%Z
  | t => option_map Z.of_int (NilZero.int_of_string t)
  end.

Definition wording (t : type_error) : string :=
  match t with
  | NullishProperty prop => "Cannot read properties of undefined (reading '" ++ prop ++ "')"
  | NullishDestructure => "Cannot destructure 'analysis' as it is undefined."
  | NotCallable prop => prop ++ " is not a function"
  | NoPrimitive => "Cannot convert object to primitive value"
  end.

#[export] Instance engine : Engine := {|
  number := option Z;
  Number_toString := print;
  Number_toBoolean := truthy;
  Number_positive := positive;
  StringToNumber := read;
  String_trim := trim;
  String_toLowerCase := toLowerCase;
  QuoteJSONString := quote;
  TypeError_message := wording
|}.

(** A page at rest, with [text] typed into the form. *)
Definition page (text : string) : World :=
  {| dom := {| emailContent_value := text;
               analyzeBtn_innerHTML := "🔍 Analizar Correo";
               analyzeBtn_disabled := false;
               results_style_display := "none";
               resultsHeader_className := "card-header";
               resultsBody_innerHTML := EmptyString |};
     trace := [] |}.

(** The four scenarios of the specification. *)
Definition scenario_A : AnalysisResult :=
  {| risk_level := "ALTO"; risk_color := "danger"; score := Some 85%Z;
     detected_keywords := ["free"; "click"];
     suspicious_urls := ["http://bit.ly/x"];
     total_urls := Some 1%Z |}.

Definition scenario_B : AnalysisResult :=
  {| risk_level := "BAJO"; risk_color := "success"; score := Some 0%Z;
     detected_keywords := [];
     suspicious_urls := [];
     total_urls := Some 0%Z |}.

Definition scenario_C : value :=
  VObject [("error", VString "malformed payload")].

Definition scenario_D : Network :=
  fun _ _ => Throw {| name := "TypeError"; message := "Failed to fetch" |}.

(** A page that shows the results of scenario A. *)
Definition page_after_A (text : string) : World :=
  {| dom := {| emailContent_value := text;
               analyzeBtn_innerHTML := "🔍 Analizar Correo";
               analyzeBtn_disabled := false;
               results_style_display := "block";
               resultsHeader_className := "card-header bg-danger text-white";
               resultsBody_innerHTML := analysis_markup scenario_A |};
     trace := [] |}.

End SmallEngine.

(** * Properties *)

(** ** Strings *)

Lemma append_assoc (s t u : string) : (s ++ t) ++ u = s ++ t ++ u.
Proof.
  induction s as [|c s IH]; simpl; [reflexivity|].
  now rewrite IH.
Qed.

Lemma append_empty_r (s : string) : s ++ EmptyString = s.
Proof.
  induction s as [|c s IH]; simpl; [reflexivity|].
  now rewrite IH.
Qed.

Lemma length_append (s t : string) :
  String.length (s ++ t) = String.length s + String.length t.
Proof.
  induction s as [|c s IH]; simpl; [reflexivity|].
  now rewrite IH.
Qed.

Lemma append_cancel_l (p s t : string) : p ++ s = p ++ t -> s = t.
Proof.
  induction p as [|c p IH]; simpl; intros H; [exact H|].
  injection H as H. now apply IH.
Qed.

Lemma append_cancel_r (s t q : string) : s ++ q = t ++ q -> s = t.
Proof.
  revert t. induction s as [|c s IH]; intros [|d t] H; simpl in H.
  - reflexivity.
  - apply (f_equal String.length) in H. simpl in H.
    rewrite length_append in H. lia.
  - apply (f_equal String.length) in H. simpl in H.
    rewrite length_append in H. lia.
  - injection H as Hc H. subst d. f_equal. now apply IH.
Qed.

Lemma append_nonempty_l (s t : string) : s <> EmptyString -> s ++ t <> EmptyString.
Proof.
  destruct s as [|c s]; simpl; [congruence | discriminate].
Qed.

(** ** Effects *)

Section Effects.
Context {E : Engine}.

Lemma after_app (evs evs' : list event) (w : World) :
  after (evs ++ evs') w = after evs' (after evs w).
Proof.
  unfold after. apply fold_left_app.
Qed.

Lemma trace_after (evs : list event) (w : World) :
  trace (after evs w) = (trace w ++ evs)%list.
Proof.
  revert w. induction evs as [|ev evs IH]; intros w; simpl.
  - now rewrite app_nil_r.
  - rewrite IH. simpl. now rewrite <- app_assoc.
Qed.

End Effects.

(** ** The renderer on a well-typed analysis *)

Section Renderer.
Context {E : Engine}.

Lemma destructure_analysis (a : AnalysisResult) :
  destructure (analysis_value a)
  = Normal (VString (risk_level a), VString (risk_color a), VNumber (score a),
            VArray (map VString (detected_keywords a)),
            VArray (map VString (suspicious_urls a)),
            VNumber (total_urls a)).
Proof. reflexivity. Qed.

Lemma mapC_strings (f : value -> completion string) (g : string -> string)
    (l : list string) :
  (forall s, f (VString s) = Normal (g s)) ->
  mapC f (map VString l) = Normal (map g l).
Proof.
  intros Hf. induction l as [|s l IH]; simpl; [reflexivity|].
  now rewrite Hf, IH.
Qed.

Lemma keywords_block_strings (kws : list string) :
  keywords_block (VArray (map VString kws))
  = Normal (block keywords_part_0 keywords_part_1 (map badge kws)).
Proof.
  unfold keywords_block. destruct kws as [|k kws]; [reflexivity|].
  cbn [length_gt_zero bindC]. rewrite length_map.
  cbn [List.length Nat.ltb Nat.leb call_map].
  rewrite (mapC_strings keyword_badge badge (k :: kws)) by reflexivity.
  reflexivity.
Qed.

Lemma urls_block_strings (urls : list string) :
  urls_block (VArray (map VString urls))
  = Normal (block urls_part_0 urls_part_1 (map item urls)).
Proof.
  unfold urls_block. destruct urls as [|u urls]; [reflexivity|].
  cbn [length_gt_zero bindC]. rewrite length_map.
  cbn [List.length Nat.ltb Nat.leb call_map].
  rewrite (mapC_strings url_item item (u :: urls)) by reflexivity.
  reflexivity.
Qed.

Lemma body_markup_analysis (a : AnalysisResult) :
  (let '(alertClass, riskIcon, recommendation) :=
     switch_risk_level (VString (risk_level a)) in
   body_markup alertClass riskIcon recommendation
     (VString (risk_level a)) (VNumber (score a))
     (VArray (map VString (detected_keywords a)))
     (VArray (map VString (suspicious_urls a)))
     (VNumber (total_urls a)))
  = Normal (analysis_markup a).
Proof.
  unfold analysis_markup, alert_of.
  destruct (switch_risk_level (VString (risk_level a))) as [[alertClass riskIcon] recommendation].
  unfold body_markup.
  cbn [call_toLowerCase ToString bindC].
  rewrite keywords_block_strings, urls_block_strings.
  cbn [bindC]. unfold alert_markup, footer_markup.
  repeat rewrite append_assoc. reflexivity.
Qed.

Lemma displayResults_analysis (a : AnalysisResult) (w : World) :
  displayResults (analysis_value a) w = (Normal tt, after (display_events a) w).
Proof.
  unfold displayResults, bind, lift.
  rewrite destructure_analysis.
  cbn [header_className ToString bindC write emit].
  pose proof (body_markup_analysis a) as Hb.
  destruct (switch_risk_level (VString (risk_level a))) as [[alertClass riskIcon] recommendation].
  rewrite Hb. reflexivity.
Qed.

Lemma innerHTML_displayed (a : AnalysisResult) (w : World) :
  resultsBody_innerHTML (dom (after (display_events a) w)) = analysis_markup a.
Proof. reflexivity. Qed.

Lemma className_displayed (a : AnalysisResult) (w : World) :
  resultsHeader_className (dom (after (display_events a) w))
  = "card-header bg-" ++ risk_color a ++ " text-white".
Proof. reflexivity. Qed.

Lemma switch_risk_level_table (v : value) :
  let p := presentation_table (tier_of v) in
  switch_risk_level v = (alert_class (alertStyle p), icon p, recommendation p).
Proof.
  unfold switch_risk_level, tier_of, strict_equals.
  destruct v as [| | b | n | s | elems | props]; try reflexivity.
  destruct (String.eqb_spec s "ALTO") as [->|Hhigh]; [reflexivity|].
  destruct (string_dec s "ALTO") as [Heq|_]; [contradiction|].
  destruct (String.eqb_spec s "MEDIO") as [->|Hmedium]; [reflexivity|].
  destruct (string_dec s "MEDIO") as [Heq|_]; [contradiction|].
  reflexivity.
Qed.

Lemma concat_empty_cons (x : string) (l : list string) :
  String.concat EmptyString (x :: l) = x ++ String.concat EmptyString l.
Proof.
  destruct l as [|y l]; simpl; [now rewrite append_empty_r | reflexivity].
Qed.

Lemma concat_empty_app (l l' : list string) :
  String.concat EmptyString (l ++ l')
  = String.concat EmptyString l ++ String.concat EmptyString l'.
Proof.
  induction l as [|x l IH]; [reflexivity|].
  rewrite <- app_comm_cons, !concat_empty_cons, IH.
  now rewrite append_assoc.
Qed.

Lemma block_nonempty (opening closing : string) (entries : list string) :
  entries <> [] ->
  block opening closing entries
  = opening ++ String.concat EmptyString entries ++ closing.
Proof.
  destruct entries; [congruence | reflexivity].
Qed.

Lemma block_empty_iff (opening closing : string) (entries : list string) :
  opening <> EmptyString ->
  block opening closing entries = EmptyString <-> entries = [].
Proof.
  intros Hopen. destruct entries as [|x l]; simpl; split; try congruence.
  intros H. exfalso. revert H. now apply append_nonempty_l.
Qed.

Lemma map_eq_nil_iff {A B} (f : A -> B) (l : list A) : map f l = [] <-> l = [].
Proof.
  destruct l; simpl; split; congruence.
Qed.

(** A string of the list is wrapped in its entry, and the entry sits in
    the block as it is. *)
Lemma block_entry (opening closing : string) (wrap : string -> string)
    (l : list string) (x : string) :
  In x l ->
  exists pre post,
    block opening closing (map wrap l) = pre ++ wrap x ++ post.
Proof.
  intros Hin. destruct (in_split x l Hin) as (l1 & l2 & ->).
  rewrite block_nonempty by (rewrite map_eq_nil_iff; now destruct l1).
  rewrite map_app, concat_empty_app. cbn [map].
  rewrite concat_empty_cons.
  exists (opening ++ String.concat EmptyString (map wrap l1)),
         (String.concat EmptyString (map wrap l2) ++ closing).
  now rewrite !append_assoc.
Qed.

End Renderer.

(** ** Claims about [displayResults] *)

Section RendererClaims.
Context {E : Engine}.

(** C1.  The tier-to-presentation mapping is the table of the
    specification: on every value the [switch] leaves in [alertClass],
    [riskIcon] and [recommendation] the row of [ALTO], the row of [MEDIO]
    or, for anything else, the default row; as a function of the value it
    is determined and defined everywhere.  For every analysis
    [displayResults] completes and the markup it assigns opens with the
    alert built from that row. *)
Theorem C1_tier_presentation (a : AnalysisResult) (w : World) :
  (forall v : value,
      let p := presentation_table (tier_of v) in
      switch_risk_level v = (alert_class (alertStyle p), icon p, recommendation p))
  /\ exists w' rest,
       displayResults (analysis_value a) w = (Normal tt, w')
       /\ let p := presentation_table (tier_of (VString (risk_level a))) in
          resultsBody_innerHTML (dom w')
          = alert_markup (alert_class (alertStyle p)) (icon p) (recommendation p) a
            ++ rest.
Proof.
  split; [exact switch_risk_level_table|].
  eexists _, _. split; [apply displayResults_analysis|].
  cbv zeta. rewrite innerHTML_displayed.
  unfold analysis_markup, alert_of.
  rewrite (switch_risk_level_table (VString (risk_level a))).
  cbv zeta. reflexivity.
Qed.

(** C3.  The keyword block is in the markup exactly when
    [detected_keywords] is not empty, the URL block exactly when
    [suspicious_urls] is not empty; for an empty list the interpolation
    is the empty string, so nothing of the block is there.  Another
    [total_urls] changes the footer only. *)
Theorem C3_evidence_blocks (a : AnalysisResult) (w : World) :
  exists keywords urls,
    keywords_block (VArray (map VString (detected_keywords a))) = Normal keywords
    /\ urls_block (VArray (map VString (suspicious_urls a))) = Normal urls
    /\ (keywords = EmptyString <-> detected_keywords a = [])
    /\ (urls = EmptyString <-> suspicious_urls a = [])
    /\ forall n : number,
         exists w',
           displayResults (analysis_value (with_total_urls a n)) w = (Normal tt, w')
           /\ resultsBody_innerHTML (dom w')
              = alert_of a ++ keywords ++ body_part_7 ++ urls
                ++ body_part_8 ++ Number_toString n ++ body_part_9.
Proof.
  eexists _, _.
  split; [apply keywords_block_strings|].
  split; [apply urls_block_strings|].
  split.
  { rewrite block_empty_iff by discriminate. apply map_eq_nil_iff. }
  split.
  { rewrite block_empty_iff by discriminate. apply map_eq_nil_iff. }
  intros n. eexists. split; [apply displayResults_analysis|].
  rewrite innerHTML_displayed. reflexivity.
Qed.

(** C6.  The class of the results header is the fixed text around the
    [risk_color] of the service; [risk_level] has no part in it, so two
    analyses of one level and different colors get different classes. *)
Theorem C6_header_token (a b : AnalysisResult) (w : World) :
  risk_level a = risk_level b ->
  risk_color a <> risk_color b ->
  exists wa wb,
    displayResults (analysis_value a) w = (Normal tt, wa)
    /\ displayResults (analysis_value b) w = (Normal tt, wb)
    /\ resultsHeader_className (dom wa)
       = "card-header bg-" ++ risk_color a ++ " text-white"
    /\ resultsHeader_className (dom wb)
       = "card-header bg-" ++ risk_color b ++ " text-white"
    /\ resultsHeader_className (dom wa) <> resultsHeader_className (dom wb).
Proof.
  intros _ Hcolor. eexists _, _.
  split; [apply displayResults_analysis|].
  split; [apply displayResults_analysis|].
  rewrite !className_displayed.
  split; [reflexivity|]. split; [reflexivity|].
  intros H. apply append_cancel_l, append_cancel_r in H. contradiction.
Qed.

(** C7.  The badges are the keywords, one badge per keyword in the order
    of the list, and the list items are the URLs likewise; a non-empty
    list appears in the markup as the concatenation of its entries
    between the opening and the closing of its block. *)
Theorem C7_evidence_order (a : AnalysisResult) (w : World) :
  exists w' badges items,
    displayResults (analysis_value a) w = (Normal tt, w')
    /\ call_map (VArray (map VString (detected_keywords a))) keyword_badge
       = Normal badges
    /\ call_map (VArray (map VString (suspicious_urls a))) url_item
       = Normal items
    /\ badges = map (fun k => badge_part_0 ++ k ++ badge_part_1) (detected_keywords a)
    /\ items = map (fun u => item_part_0 ++ u ++ item_part_1) (suspicious_urls a)
    /\ (detected_keywords a <> [] ->
        resultsBody_innerHTML (dom w')
        = alert_of a ++ keywords_part_0 ++ String.concat EmptyString badges
          ++ keywords_part_1 ++ body_part_7
          ++ block urls_part_0 urls_part_1 items ++ footer_markup a)
    /\ (suspicious_urls a <> [] ->
        resultsBody_innerHTML (dom w')
        = alert_of a ++ block keywords_part_0 keywords_part_1 badges
          ++ body_part_7 ++ urls_part_0 ++ String.concat EmptyString items
          ++ urls_part_1 ++ footer_markup a).
Proof.
  eexists _, _, _.
  split; [apply displayResults_analysis|].
  split; [apply (mapC_strings keyword_badge badge); reflexivity|].
  split; [apply (mapC_strings url_item item); reflexivity|].
  split; [reflexivity|]. split; [reflexivity|].
  rewrite innerHTML_displayed. unfold analysis_markup. split.
  - intros Hk.
    rewrite (block_nonempty keywords_part_0) by now rewrite map_eq_nil_iff.
    rewrite !append_assoc. reflexivity.
  - intros Hu.
    rewrite (block_nonempty urls_part_0) by now rewrite map_eq_nil_iff.
    rewrite !append_assoc. reflexivity.
Qed.

(** C8.  Every keyword and every URL stands in the markup as it came,
    directly between the opening and closing text of its entry, and so do
    [risk_level] and the printed [score] in the heading and the score
    line: no character of them is escaped or removed. *)
Theorem C8_verbatim_interpolation (a : AnalysisResult) (w : World) :
  exists w',
    displayResults (analysis_value a) w = (Normal tt, w')
    /\ (forall k, In k (detected_keywords a) ->
        exists pre post,
          resultsBody_innerHTML (dom w')
          = pre ++ badge_part_0 ++ k ++ badge_part_1 ++ post)
    /\ (forall u, In u (suspicious_urls a) ->
        exists pre post,
          resultsBody_innerHTML (dom w')
          = pre ++ item_part_0 ++ u ++ item_part_1 ++ post)
    /\ (exists pre post,
          resultsBody_innerHTML (dom w')
          = pre ++ body_part_3 ++ risk_level a ++ body_part_4
            ++ Number_toString (score a) ++ body_part_5 ++ post).
Proof.
  eexists. split; [apply displayResults_analysis|].
  rewrite innerHTML_displayed. unfold analysis_markup.
  split; [|split].
  - intros k Hk.
    destruct (block_entry keywords_part_0 keywords_part_1 badge _ _ Hk)
      as (pre & post & ->).
    eexists (alert_of a ++ pre), _. unfold badge.
    rewrite !append_assoc. reflexivity.
  - intros u Hu.
    destruct (block_entry urls_part_0 urls_part_1 item _ _ Hu)
      as (pre & post & ->).
    eexists (alert_of a
             ++ block keywords_part_0 keywords_part_1 (map badge (detected_keywords a))
             ++ body_part_7 ++ pre), _. unfold item.
    rewrite !append_assoc. reflexivity.
  - unfold alert_of.
    destruct (switch_risk_level (VString (risk_level a)))
      as [[alertClass riskIcon] advice].
    unfold alert_markup.
    eexists (body_part_0 ++ alertClass ++ body_part_1
             ++ String_toLowerCase (risk_level a) ++ body_part_2 ++ riskIcon), _.
    rewrite !append_assoc. reflexivity.
Qed.

End RendererClaims.

(** ** What the renderer throws *)

Section Throws.
Context {E : Engine}.

Lemma value_ind_nested (P : value -> Prop) :
  P VUndefined -> P VNull -> (forall b, P (VBool b)) ->
  (forall n, P (VNumber n)) -> (forall s, P (VString s)) ->
  (forall elems, Forall P elems -> P (VArray elems)) ->
  (forall props, P (VObject props)) ->
  forall x, P x.
Proof.
  intros Hu Hn Hb Hnum Hs Ha Ho.
  fix IH 1. intros [| | b | n | s | elems | props].
  - exact Hu.
  - exact Hn.
  - apply Hb.
  - apply Hnum.
  - apply Hs.
  - apply Ha. induction elems as [|y rest IHrest]; constructor.
    + apply IH.
    + exact IHrest.
  - apply Ho.
Qed.

Lemma raises_Normal {A} (a : A) : raises_TypeError (Normal a).
Proof. intros e H. discriminate. Qed.

Lemma raises_Throw {A} (t : type_error) :
  raises_TypeError (Throw (TypeError t) : completion A).
Proof. intros e H. injection H as <-. reflexivity. Qed.

Lemma raises_bindC {A B} (c : completion A) (k : A -> completion B) :
  raises_TypeError c -> (forall a, raises_TypeError (k a)) ->
  raises_TypeError (bindC c k).
Proof.
  intros Hc Hk e. destruct c as [a|e']; simpl.
  - apply Hk.
  - intros H. injection H as <-. now apply Hc.
Qed.

Lemma raises_mapC {A B} (f : A -> completion B) (l : list A) :
  (forall x, raises_TypeError (f x)) -> raises_TypeError (mapC f l).
Proof.
  intros Hf. induction l as [|x l IH]; simpl.
  - apply raises_Normal.
  - apply raises_bindC; [apply Hf|]. intros y.
    apply raises_bindC; [exact IH|]. intros ys. apply raises_Normal.
Qed.

Create HintDb raises.
#[local] Hint Resolve raises_Normal raises_Throw raises_bindC raises_mapC : raises.

Lemma raises_ToString (x : value) : raises_TypeError (ToString x).
Proof.
  induction x as [| | b | n | s | elems IH | props] using value_ind_nested;
    cbn [ToString]; auto with raises.
  - destruct b; auto with raises.
  - apply raises_bindC; [|auto with raises].
    induction IH as [|y rest Hy _ IHrest]; [auto with raises|].
    apply raises_bindC; [destruct y; auto with raises|]. intros s.
    apply raises_bindC; [exact IHrest | auto with raises].
  - destruct (own_property "toString" props); auto with raises.
Qed.

Lemma raises_get (x : value) (k : string) : raises_TypeError (get x k).
Proof.
  destruct x as [| | b | n | s | elems | props]; cbn [get]; auto with raises.
  destruct (own_property k props); auto with raises.
Qed.

#[local] Hint Resolve raises_ToString raises_get : raises.

Lemma raises_destructure (x : value) : raises_TypeError (destructure x).
Proof.
  destruct x; cbn [destructure]; auto 20 with raises.
Qed.

Lemma raises_gt_zero (x : value) : raises_TypeError (gt_zero x).
Proof.
  destruct x; unfold gt_zero; auto with raises.
Qed.

#[local] Hint Resolve raises_gt_zero : raises.

Lemma raises_length_gt_zero (x : value) : raises_TypeError (length_gt_zero x).
Proof.
  destruct x as [| | b | n | s | elems | props]; cbn [length_gt_zero];
    auto with raises.
  destruct (own_property "length" props); auto with raises.
Qed.

Lemma raises_call_map (x : value) (f : value -> completion string) :
  (forall y, raises_TypeError (f y)) -> raises_TypeError (call_map x f).
Proof.
  intros Hf. destruct x; cbn [call_map]; auto with raises.
Qed.

Lemma raises_call_toLowerCase (x : value) : raises_TypeError (call_toLowerCase x).
Proof.
  destruct x; cbn [call_toLowerCase]; auto with raises.
Qed.

#[local] Hint Resolve raises_length_gt_zero raises_call_map
  raises_call_toLowerCase : raises.

Lemma raises_keywords_block (x : value) : raises_TypeError (keywords_block x).
Proof.
  unfold keywords_block. apply raises_bindC; [auto with raises|].
  intros [|]; [|auto with raises].
  apply raises_bindC; [|auto with raises].
  apply raises_call_map. intros y. unfold keyword_badge. auto with raises.
Qed.

Lemma raises_urls_block (x : value) : raises_TypeError (urls_block x).
Proof.
  unfold urls_block. apply raises_bindC; [auto with raises|].
  intros [|]; [|auto with raises].
  apply raises_bindC; [|auto with raises].
  apply raises_call_map. intros y. unfold url_item. auto with raises.
Qed.

#[local] Hint Resolve raises_keywords_block raises_urls_block : raises.

Lemma raises_body_markup (alertClass riskIcon advice : string)
    (rl sc dk su tu : value) :
  raises_TypeError (body_markup alertClass riskIcon advice rl sc dk su tu).
Proof.
  unfold body_markup. auto 20 with raises.
Qed.

Lemma raises_header_className (x : value) : raises_TypeError (header_className x).
Proof.
  unfold header_className. auto with raises.
Qed.

(** Whatever [displayResults] throws is a [TypeError]. *)
Lemma displayResults_throws (analysis : value) (w w' : World) (e : Error) :
  displayResults analysis w = (Throw e, w') -> name e = "TypeError".
Proof.
  unfold displayResults, bind, lift.
  destruct (destructure analysis) as [[[[[[rl rc] sc] dk] su] tu]|e0] eqn:Hd.
  2:{ intros H. injection H as <- _. now apply (raises_destructure analysis). }
  destruct (header_className rc) as [className|e0] eqn:Hh.
  2:{ intros H. injection H as <- _. now apply (raises_header_className rc). }
  cbn [write emit].
  destruct (switch_risk_level rl) as [[alertClass riskIcon] advice].
  destruct (body_markup alertClass riskIcon advice rl sc dk su tu)
    as [innerHTML|e0] eqn:Hb.
  - discriminate.
  - intros H. injection H as <- _. now apply (raises_body_markup _ _ _ _ _ _ _ _ _ Hb).
Qed.

End Throws.

(** ** The runs of [analyzeEmail] *)

Section Client.
Context {E : Engine}.

Lemma displayResults_shape (analysis : value) (w : World) :
  (exists className innerHTML,
      displayResults analysis w
      = (Normal tt,
         after [Assign (Set_resultsHeader_className className);
                Assign (Set_resultsBody_innerHTML innerHTML);
                Assign (Set_results_style_display "block");
                ScrollIntoView "smooth"] w))
  \/ (exists e, displayResults analysis w = (Throw e, w))
  \/ (exists e className,
        displayResults analysis w
        = (Throw e, after [Assign (Set_resultsHeader_className className)] w)).
Proof.
  unfold displayResults, bind, lift.
  destruct (destructure analysis) as [[[[[[rl rc] sc] dk] su] tu]|e];
    [|right; left; now exists e].
  destruct (header_className rc) as [className|e];
    [|right; left; now exists e].
  cbn [write emit].
  destruct (switch_risk_level rl) as [[alertClass riskIcon] advice].
  destruct (body_markup alertClass riskIcon advice rl sc dk su tu) as [innerHTML|e].
  - left. now exists className, innerHTML.
  - right; right. now exists e, className.
Qed.

Lemma request_and_display_shape (net : Network) (text : string) (w : World) :
  (exists className innerHTML,
      request_and_display net text w
      = (Normal tt, after (request_event text :: shown_events className innerHTML) w))
  \/ (exists e pre,
        partial_events pre
        /\ request_and_display net text w
           = (Throw e, after (request_event text :: pre) w)).
Proof.
  unfold request_event.
  unfold request_and_display, fetch, response_json, bind, lift, emit, throw, ret.
  destruct (net "/analyze" (analyze_request text)) as [response|e];
    [|right; exists e, []; split; [constructor | reflexivity]].
  assert (Hfail : forall e,
             exists e' pre,
               partial_events pre
               /\ (Throw e : completion unit,
                   perform ResponseJson (perform (Fetch "/analyze" (analyze_request text)) w))
                  = (Throw e', after (Fetch "/analyze" (analyze_request text) :: pre) w)).
  { intros e. exists e, [ResponseJson]. split; [constructor | reflexivity]. }
  destruct (json response) as [data|e]; [|right; apply Hfail].
  destruct (get data "error") as [err|e]; [|right; apply Hfail].
  destruct (ToBoolean err).
  { destruct (ToString err) as [msg|e]; right; apply Hfail. }
  destruct (get data "analysis") as [analysis|e]; [|right; apply Hfail].
  destruct (displayResults_shape analysis
              (perform ResponseJson (perform (Fetch "/analyze" (analyze_request text)) w)))
    as [(className & innerHTML & ->) | [(e & ->) | (e & className & ->)]].
  - left. now exists className, innerHTML.
  - right. apply Hfail.
  - right. exists e, [ResponseJson; Assign (Set_resultsHeader_className className)].
    split; [constructor | reflexivity].
Qed.

(** Every run on a non-empty text completes, and is one of two: the
    results are shown, or an error is reported. *)
Lemma analyzeEmail_shape (net : Network) (w : World) :
  trimmed_text w <> EmptyString ->
  (exists className innerHTML,
      analyzeEmail net w
      = (Normal tt,
         after (start_events ++ request_event (trimmed_text w)
                  :: shown_events className innerHTML ++ finish_events) w))
  \/ (exists e pre,
        partial_events pre
        /\ analyzeEmail net w
           = (Normal tt,
              after (start_events ++ request_event (trimmed_text w)
                       :: pre ++ report_events e ++ finish_events) w)).
Proof.
  intros Htext. unfold analyzeEmail, bind, read. fold (trimmed_text w).
  destruct (String.eqb_spec (trimmed_text w) EmptyString) as [Heq|_];
    [contradiction|].
  cbn [write emit]. unfold try_catch_finally.
  destruct (request_and_display_shape net (trimmed_text w) (after start_events w))
    as [(className & innerHTML & Hrun) | (e & pre & Hpre & Hrun)];
    unfold after, start_events in Hrun; cbn [fold_left] in Hrun.
  - left. exists className, innerHTML.
    cbn [after start_events fold_left app] in *. rewrite Hrun. reflexivity.
  - right. exists e, pre. split; [exact Hpre|].
    cbn [after start_events fold_left app] in *. rewrite Hrun.
    destruct Hpre; reflexivity.
Qed.

(** A [try] block that throws leads to the report and the restoring. *)
Lemma analyzeEmail_reports (net : Network) (w : World) (e : Error)
    (pre : list event) :
  trimmed_text w <> EmptyString ->
  partial_events pre ->
  request_and_display net (trimmed_text w) (after start_events w)
  = (Throw e, after (request_event (trimmed_text w) :: pre) (after start_events w)) ->
  analyzeEmail net w
  = (Normal tt,
     after (start_events ++ request_event (trimmed_text w)
              :: pre ++ report_events e ++ finish_events) w).
Proof.
  intros Htext Hpre Hrun.
  unfold analyzeEmail, bind, read. fold (trimmed_text w).
  destruct (String.eqb_spec (trimmed_text w) EmptyString) as [Heq|_];
    [contradiction|].
  cbn [write emit]. unfold try_catch_finally.
  cbn [after start_events fold_left app] in *. rewrite Hrun.
  destruct Hpre; reflexivity.
Qed.

Lemma get_absent (x : value) (k : string) :
  has_property x k = false ->
  (exists t, get x k = Throw (TypeError t)) \/ get x k = Normal VUndefined.
Proof.
  destruct x as [| | b | n | s | elems | props]; cbn [has_property get];
    intros H; eauto.
  destruct (own_property k props); [discriminate | now right].
Qed.

Lemma get_property (x : value) (k k' : string) (v : value) :
  get x k = Normal v -> get x k' = Normal (property x k').
Proof.
  unfold property.
  destruct x as [| | b | n | s | elems | props]; cbn [get]; try discriminate;
    intros _; try reflexivity.
  now destruct (own_property k' props).
Qed.

Lemma destructure_property (x : value) :
  is_nullish x = false ->
  destructure x
  = Normal (property x "risk_level", property x "risk_color", property x "score",
            property x "detected_keywords", property x "suspicious_urls",
            property x "total_urls").
Proof.
  intros Hx.
  assert (Hget : forall k, get x k = Normal (property x k)).
  { intros k. unfold property.
    destruct x as [| | b | n | s | elems | props]; try discriminate;
      cbn [get]; try reflexivity.
    now destruct (own_property k props). }
  destruct x; try discriminate; cbn [destructure];
    rewrite !Hget; reflexivity.
Qed.

Lemma body_markup_Normal (alertClass riskIcon advice : string)
    (rl sc dk su tu : value) (innerHTML : string) :
  body_markup alertClass riskIcon advice rl sc dk su tu = Normal innerHTML ->
  is_string rl = true /\ is_nullish dk = false /\ is_nullish su = false.
Proof.
  unfold body_markup, bindC.
  destruct (call_toLowerCase rl) as [lower|] eqn:Hl; [|discriminate].
  destruct (ToString rl); [|discriminate].
  destruct (ToString sc); [|discriminate].
  destruct (keywords_block dk) as [keywords|] eqn:Hk; [|discriminate].
  destruct (urls_block su) as [urls|] eqn:Hu; [|discriminate].
  intros _. repeat split.
  - destruct rl; try discriminate; reflexivity.
  - destruct dk; try discriminate; reflexivity.
  - destruct su; try discriminate; reflexivity.
Qed.

(** [displayResults] completes on usable analyses only. *)
Lemma displayResults_Normal (analysis : value) (w w' : World) :
  displayResults analysis w = (Normal tt, w') -> usable_analysis analysis = true.
Proof.
  destruct (is_nullish analysis) eqn:Hnull.
  { destruct analysis; discriminate. }
  unfold displayResults, bind, lift.
  rewrite (destructure_property analysis Hnull).
  destruct (header_className (property analysis "risk_color")); [|discriminate].
  cbn [write emit].
  destruct (switch_risk_level (property analysis "risk_level"))
    as [[alertClass riskIcon] advice].
  destruct (body_markup alertClass riskIcon advice _ _ _ _ _) as [innerHTML|]
    eqn:Hb; [|discriminate].
  intros _. apply body_markup_Normal in Hb. destruct Hb as (Hrl & Hdk & Hsu).
  destruct analysis; try discriminate.
  unfold usable_analysis. now rewrite Hrl, Hdk, Hsu.
Qed.

(** A body with neither [error] nor a usable [analysis]: the [try] block
    throws a [TypeError] after reading the body, before anything of the
    results but the header class is assigned. *)
Lemma request_and_display_unusable (net : Network) (text : string) (w : World)
    (data : value) :
  net "/analyze" (analyze_request text) = Normal {| json := Normal data |} ->
  has_property data "error" = false ->
  usable_analysis (property data "analysis") = false ->
  exists e pre,
    name e = "TypeError"
    /\ (pre = [ResponseJson]
        \/ exists className,
             pre = [ResponseJson; Assign (Set_resultsHeader_className className)])
    /\ request_and_display net text w
       = (Throw e, after (request_event text :: pre) w).
Proof.
  intros Hnet Herr Hun. unfold request_event.
  unfold request_and_display, fetch, response_json, bind, lift, emit, throw, ret.
  rewrite Hnet. cbn [json].
  destruct (get_absent data "error" Herr) as [(t & Hget) | Hget].
  { rewrite Hget. exists (TypeError t), [ResponseJson].
    split; [reflexivity|]. split; [now left | reflexivity]. }
  rewrite Hget. cbn [ToBoolean].
  rewrite (get_property data "error" "analysis" _ Hget).
  set (w2 := perform ResponseJson (perform (Fetch "/analyze" (analyze_request text)) w)).
  destruct (displayResults_shape (property data "analysis") w2)
    as [(className & innerHTML & Hrun) | [(e & Hrun) | (e & className & Hrun)]].
  - apply displayResults_Normal in Hrun. congruence.
  - rewrite Hrun. exists e, [ResponseJson].
    split; [exact (displayResults_throws _ _ _ _ Hrun)|].
    split; [now left | reflexivity].
  - rewrite Hrun.
    exists e, [ResponseJson; Assign (Set_resultsHeader_className className)].
    split; [exact (displayResults_throws _ _ _ _ Hrun)|].
    split; [right; now exists className | reflexivity].
Qed.

(** A body whose [error] is a non-empty string: the [try] block throws
    an [Error] with that string as its message, right after reading the
    body. *)
Lemma request_and_display_error (net : Network) (text : string) (w : World)
    (props : list (string * value)) (s : string) :
  net "/analyze" (analyze_request text) = Normal {| json := Normal (VObject props) |} ->
  own_property "error" props = Some (VString s) ->
  s <> EmptyString ->
  request_and_display net text w
  = (Throw (new_Error s), after [request_event text; ResponseJson] w).
Proof.
  intros Hnet Herr Hs.
  unfold request_and_display, fetch, response_json, bind, lift, emit, throw, ret.
  rewrite Hnet. cbn [json get]. rewrite Herr. cbn [ToBoolean].
  destruct (String.eqb_spec s EmptyString) as [Heq|_]; [contradiction|].
  reflexivity.
Qed.

End Client.

(** ** Claims about [analyzeEmail] *)

Section ClientClaims.
Context {E : Engine}.

(** C2.  When the text of the form trims to the empty string,
    [analyzeEmail] asks for input and returns: its only effect is the
    prompt.  No request is built or sent, the button and the rest of the
    page stay as they were. *)
Theorem C2_empty_input (net : Network) (w : World) :
  trimmed_text w = EmptyString ->
  exists w',
    analyzeEmail net w = (Normal tt, w')
    /\ trace w' = (trace w ++ [Alert empty_prompt])%list
    /\ dom w' = dom w.
Proof.
  intros Htext. eexists. split; [|split].
  - unfold analyzeEmail, bind, read. fold (trimmed_text w).
    rewrite Htext. reflexivity.
  - reflexivity.
  - reflexivity.
Qed.

(** C4.  On a non-empty text every run completes.  The button is put in
    its loading state once, before the request; it is put back once, as
    the last thing done; between the request and the restoring nothing
    touches the button and no further request is sent.  So the run ends
    with the button enabled and labelled as at rest, whatever the network
    answered. *)
Theorem C4_loading_indicator (net : Network) (w : World) :
  trimmed_text w <> EmptyString ->
  exists mid w',
    analyzeEmail net w = (Normal tt, w')
    /\ trace w'
       = (trace w
          ++ [Assign (Set_analyzeBtn_innerHTML loading_label);
              Assign (Set_analyzeBtn_disabled true);
              Assign (Set_results_style_display "none");
              Fetch "/analyze" (analyze_request (trimmed_text w))]
          ++ mid
          ++ [Assign (Set_analyzeBtn_innerHTML idle_label);
              Assign (Set_analyzeBtn_disabled false)])%list
    /\ existsb touches_button mid = false
    /\ existsb is_fetch mid = false
    /\ analyzeBtn_innerHTML (dom w') = idle_label
    /\ analyzeBtn_disabled (dom w') = false.
Proof.
  intros Htext.
  destruct (analyzeEmail_shape net w Htext)
    as [(className & innerHTML & ->) | (e & pre & Hpre & ->)].
  - exists (shown_events className innerHTML). eexists.
    split; [reflexivity|]. rewrite trace_after.
    repeat split.
  - exists (pre ++ report_events e)%list. eexists.
    split; [reflexivity|]. rewrite trace_after.
    split; [cbn [start_events request_event app]; now rewrite <- app_assoc|].
    destruct Hpre; repeat split.
Qed.

(** C10.  On a non-empty text the results region is hidden before the
    request is sent.  Then either the markup is assigned and the region
    shown after it, or an error is reported, nothing has touched the
    region or its body, and the run ends with the region hidden and the
    body as it was: results of an earlier analysis are not on screen
    after a failure. *)
Theorem C10_results_region (net : Network) (w : World) :
  trimmed_text w <> EmptyString ->
  exists mid w',
    analyzeEmail net w = (Normal tt, w')
    /\ trace w'
       = (trace w
          ++ [Assign (Set_analyzeBtn_innerHTML loading_label);
              Assign (Set_analyzeBtn_disabled true);
              Assign (Set_results_style_display "none");
              Fetch "/analyze" (analyze_request (trimmed_text w))]
          ++ mid
          ++ [Assign (Set_analyzeBtn_innerHTML idle_label);
              Assign (Set_analyzeBtn_disabled false)])%list
    /\ ((exists className innerHTML,
            mid = [ResponseJson;
                   Assign (Set_resultsHeader_className className);
                   Assign (Set_resultsBody_innerHTML innerHTML);
                   Assign (Set_results_style_display "block");
                   ScrollIntoView "smooth"]
            /\ resultsBody_innerHTML (dom w') = innerHTML
            /\ results_style_display (dom w') = "block")
        \/ (exists e before,
              mid = (before ++ [ConsoleError "Error:" e;
                                Alert (error_prefix ++ message e)])%list
              /\ existsb touches_results before = false
              /\ resultsBody_innerHTML (dom w') = resultsBody_innerHTML (dom w)
              /\ results_style_display (dom w') = "none")).
Proof.
  intros Htext.
  destruct (analyzeEmail_shape net w Htext)
    as [(className & innerHTML & ->) | (e & pre & Hpre & ->)].
  - exists (shown_events className innerHTML). eexists.
    split; [reflexivity|]. rewrite trace_after.
    split; [reflexivity|].
    left. exists className, innerHTML. repeat split.
  - exists (pre ++ report_events e)%list. eexists.
    split; [reflexivity|]. rewrite trace_after.
    split; [cbn [start_events request_event app]; now rewrite <- app_assoc|].
    right. exists e, pre. destruct Hpre; repeat split.
Qed.

(** C5, as the script has it.  When the body is an object whose [error]
    is a non-empty string, the [try] block throws an [Error] whose message
    is that string right after the body is read; the error is logged, the
    notification is the fixed prefix followed by the string, nothing of
    the results is assigned, the region stays hidden and the button is
    restored.  An [error] that is the empty string does not pass the
    test [if (data.error)] and is no error for the script. *)
Theorem C5_service_error (net : Network) (w : World)
    (props : list (string * value)) (s : string) :
  trimmed_text w <> EmptyString ->
  net "/analyze" (analyze_request (trimmed_text w))
  = Normal {| json := Normal (VObject props) |} ->
  own_property "error" props = Some (VString s) ->
  s <> EmptyString ->
  exists w',
    analyzeEmail net w = (Normal tt, w')
    /\ trace w'
       = (trace w
          ++ [Assign (Set_analyzeBtn_innerHTML loading_label);
              Assign (Set_analyzeBtn_disabled true);
              Assign (Set_results_style_display "none");
              Fetch "/analyze" (analyze_request (trimmed_text w));
              ResponseJson;
              ConsoleError "Error:" (new_Error s);
              Alert (error_prefix ++ s);
              Assign (Set_analyzeBtn_innerHTML idle_label);
              Assign (Set_analyzeBtn_disabled false)])%list
    /\ resultsBody_innerHTML (dom w') = resultsBody_innerHTML (dom w)
    /\ resultsHeader_className (dom w') = resultsHeader_className (dom w)
    /\ results_style_display (dom w') = "none".
Proof.
  intros Htext Hnet Herr Hs. eexists. split.
  - apply (analyzeEmail_reports net w (new_Error s) [ResponseJson] Htext);
      [constructor|].
    now apply request_and_display_error with (props := props).
  - rewrite trace_after. repeat split.
Qed.

(** C9.  When the body has no [error] property and its [analysis] is not
    usable (absent, null, not an object, without a string [risk_level] or
    without one of the two evidence fields), [displayResults] or the read
    before it throws a [TypeError] of the engine.  It is handled as every
    other error: logged, notified with the fixed prefix before its
    message; the markup and the display of the region are not assigned,
    the region ends hidden and the button restored. *)
Theorem C9_unusable_response (net : Network) (w : World) (data : value) :
  trimmed_text w <> EmptyString ->
  net "/analyze" (analyze_request (trimmed_text w))
  = Normal {| json := Normal data |} ->
  has_property data "error" = false ->
  usable_analysis (property data "analysis") = false ->
  exists e before w',
    name e = "TypeError"
    /\ analyzeEmail net w = (Normal tt, w')
    /\ trace w'
       = (trace w
          ++ [Assign (Set_analyzeBtn_innerHTML loading_label);
              Assign (Set_analyzeBtn_disabled true);
              Assign (Set_results_style_display "none");
              Fetch "/analyze" (analyze_request (trimmed_text w));
              ResponseJson]
          ++ before
          ++ [ConsoleError "Error:" e;
              Alert (error_prefix ++ message e);
              Assign (Set_analyzeBtn_innerHTML idle_label);
              Assign (Set_analyzeBtn_disabled false)])%list
    /\ (before = []
        \/ exists className, before = [Assign (Set_resultsHeader_className className)])
    /\ resultsBody_innerHTML (dom w') = resultsBody_innerHTML (dom w)
    /\ results_style_display (dom w') = "none"
    /\ analyzeBtn_innerHTML (dom w') = idle_label
    /\ analyzeBtn_disabled (dom w') = false.
Proof.
  intros Htext Hnet Herr Hun.
  destruct (request_and_display_unusable net (trimmed_text w)
              (after start_events w) data Hnet Herr Hun)
    as (e & pre & He & Hpre & Hrun).
  assert (Hpartial : partial_events pre).
  { destruct Hpre as [-> | (className & ->)]; constructor. }
  exists e, (tl pre). eexists.
  split; [exact He|].
  split; [exact (analyzeEmail_reports net w e pre Htext Hpartial Hrun)|].
  rewrite trace_after.
  destruct Hpre as [-> | (className & ->)]; cbn [tl].
  - split; [reflexivity|]. split; [now left|]. repeat split.
  - split; [reflexivity|]. split; [right; now exists className|]. repeat split.
Qed.

End ClientClaims.

(** * Further properties of the script *)

(** ** Runs as sequences of effects *)

Section Runs.
Context {E : Engine}.

(** What [displayResults] does is fixed by the analysis alone. *)
Lemma displayResults_uniform (analysis : value) :
  (exists className innerHTML,
      forall w,
        displayResults analysis w
        = (Normal tt,
           after [Assign (Set_resultsHeader_className className);
                  Assign (Set_resultsBody_innerHTML innerHTML);
                  Assign (Set_results_style_display "block");
                  ScrollIntoView "smooth"] w))
  \/ (exists e, forall w, displayResults analysis w = (Throw e, w))
  \/ (exists e className,
        forall w,
          displayResults analysis w
          = (Throw e, after [Assign (Set_resultsHeader_className className)] w)).
Proof.
  unfold displayResults, bind, lift.
  destruct (destructure analysis) as [[[[[[rl rc] sc] dk] su] tu]|e];
    [|right; left; now exists e].
  destruct (header_className rc) as [className|e];
    [|right; left; now exists e].
  cbn [write emit].
  destruct (switch_risk_level rl) as [[alertClass riskIcon] advice].
  destruct (body_markup alertClass riskIcon advice rl sc dk su tu) as [innerHTML|e].
  - left. now exists className, innerHTML.
  - right; right. now exists e, className.
Qed.

Lemma request_and_display_uniform (net : Network) (text : string) :
  (exists className innerHTML,
      forall w,
        request_and_display net text w
        = (Normal tt, after (request_event text :: shown_events className innerHTML) w))
  \/ (exists e pre,
        partial_events pre
        /\ forall w,
             request_and_display net text w
             = (Throw e, after (request_event text :: pre) w)).
Proof.
  unfold request_event.
  unfold request_and_display, fetch, response_json, bind, lift, emit, throw, ret.
  destruct (net "/analyze" (analyze_request text)) as [response|e];
    [|right; exists e, []; split; [constructor | reflexivity]].
  assert (Hfail : forall e,
             exists e' pre,
               partial_events pre
               /\ forall w,
                    (Throw e : completion unit,
                     perform ResponseJson
                       (perform (Fetch "/analyze" (analyze_request text)) w))
                    = (Throw e', after (Fetch "/analyze" (analyze_request text) :: pre) w)).
  { intros e. exists e, [ResponseJson]. split; [constructor | reflexivity]. }
  destruct (json response) as [data|e]; [|right; apply Hfail].
  destruct (get data "error") as [err|e]; [|right; apply Hfail].
  destruct (ToBoolean err).
  { destruct (ToString err) as [msg|e]; right; apply Hfail. }
  destruct (get data "analysis") as [analysis|e]; [|right; apply Hfail].
  destruct (displayResults_uniform analysis)
    as [(className & innerHTML & Hrun) | [(e & Hrun) | (e & className & Hrun)]].
  - left. exists className, innerHTML. intros w. now rewrite Hrun.
  - right. exists e, [ResponseJson]. split; [constructor|].
    intros w. now rewrite Hrun.
  - right. exists e, [ResponseJson; Assign (Set_resultsHeader_className className)].
    split; [constructor|]. intros w. now rewrite Hrun.
Qed.

(** A run is fixed by the network and the trimmed text: the same effects
    on every page with that text, in one of the three shapes. *)
Lemma analyzeEmail_uniform (net : Network) (text : string) :
  exists evs,
    run_shape text evs
    /\ forall w, trimmed_text w = text -> analyzeEmail net w = (Normal tt, after evs w).
Proof.
  destruct (String.eqb_spec text EmptyString) as [Hempty|Htext].
  { exists [Alert empty_prompt]. split; [now constructor|].
    intros w Hw. unfold analyzeEmail, bind, read. fold (trimmed_text w).
    rewrite Hw, Hempty. reflexivity. }
  destruct (request_and_display_uniform net text)
    as [(className & innerHTML & Hrun) | (e & pre & Hpre & Hrun)].
  - eexists. split; [now apply (run_shown text className innerHTML)|].
    intros w Hw. unfold analyzeEmail, bind, read. fold (trimmed_text w).
    rewrite Hw.
    destruct (String.eqb_spec text EmptyString) as [Heq|_]; [contradiction|].
    cbn [write emit]. unfold try_catch_finally. rewrite Hrun. reflexivity.
  - eexists. split; [now apply (run_reported text e pre)|].
    intros w Hw. unfold analyzeEmail, bind, read. fold (trimmed_text w).
    rewrite Hw.
    destruct (String.eqb_spec text EmptyString) as [Heq|_]; [contradiction|].
    cbn [write emit]. unfold try_catch_finally. rewrite Hrun.
    destruct Hpre; reflexivity.
Qed.

(** No effect of the script changes the text of the form. *)
Lemma emailContent_after (evs : list event) (w : World) :
  emailContent_value (dom (after evs w)) = emailContent_value (dom w).
Proof.
  revert w. induction evs as [|ev evs IH]; intros w; [reflexivity|].
  change (after (ev :: evs) w) with (after evs (perform ev w)).
  rewrite IH. destruct ev as [a | | | | |]; try reflexivity.
  destruct a; reflexivity.
Qed.

Lemma trimmed_text_after (evs : list event) (w : World) :
  trimmed_text (after evs w) = trimmed_text w.
Proof.
  unfold trimmed_text. now rewrite emailContent_after.
Qed.

Lemma run_shape_alerts (text : string) (evs : list event) :
  run_shape text evs ->
  (List.length (filter is_alert evs) = 0
   /\ existsb writes_body evs = true
   /\ forall w, results_style_display (dom (after evs w)) = "block")
  \/ (List.length (filter is_alert evs) = 1
      /\ existsb writes_body evs = false).
Proof.
  intros [Hempty | className innerHTML Htext | e pre Htext Hpre].
  - right. split; reflexivity.
  - left. repeat split.
  - right. destruct Hpre; split; reflexivity.
Qed.


Lemma run_shape_fetches (text : string) (evs : list event) :
  run_shape text evs -> List.length (filter is_fetch evs) <= 1.
Proof.
  intros [Hempty | className innerHTML _ | e pre _ Hpre].
  - cbn. lia.
  - cbn. lia.
  - destruct Hpre; cbn; lia.
Qed.

End Runs.

(** ** Outcomes of [analyzeEmail] *)

Section Outcomes.
Context {E : Engine}.

(** A [try] block that completes leads to the restoring alone. *)
Lemma analyzeEmail_shows (net : Network) (w : World)
    (className innerHTML : string) :
  trimmed_text w <> EmptyString ->
  request_and_display net (trimmed_text w) (after start_events w)
  = (Normal tt,
     after (request_event (trimmed_text w) :: shown_events className innerHTML)
       (after start_events w)) ->
  analyzeEmail net w
  = (Normal tt,
     after (start_events ++ request_event (trimmed_text w)
              :: shown_events className innerHTML ++ finish_events) w).
Proof.
  intros Htext Hrun.
  unfold analyzeEmail, bind, read. fold (trimmed_text w).
  destruct (String.eqb_spec (trimmed_text w) EmptyString) as [Heq|_];
    [contradiction|].
  cbn [write emit]. unfold try_catch_finally.
  cbn [after start_events fold_left app] in *. rewrite Hrun. reflexivity.
Qed.

(** Whatever the page holds and the network answers, [analyzeEmail]
    completes normally: every error is caught inside it, so the promise
    that the submit listener leaves unawaited never rejects. *)
Theorem analyzeEmail_never_throws (net : Network) (w : World) :
  fst (analyzeEmail net w) = Normal tt.
Proof.
  destruct (analyzeEmail_uniform net (trimmed_text w)) as (evs & _ & Hrun).
  now rewrite (Hrun w eq_refl).
Qed.

(** Of the page a run reads the trimmed text of the form and nothing
    else: on two pages with the same trimmed text it performs the same
    effects in the same order. *)
Theorem analyzeEmail_reads_only_the_text (net : Network) (w w' : World) :
  trimmed_text w = trimmed_text w' ->
  exists evs,
    analyzeEmail net w = (Normal tt, after evs w)
    /\ analyzeEmail net w' = (Normal tt, after evs w').
Proof.
  intros Hsame.
  destruct (analyzeEmail_uniform net (trimmed_text w)) as (evs & _ & Hrun).
  exists evs. split; [now apply Hrun | apply Hrun; now symmetry].
Qed.

(** A run never changes the text of the form, whatever its outcome. *)
Theorem analyzeEmail_keeps_the_text (net : Network) (w : World) :
  emailContent_value (dom (snd (analyzeEmail net w))) = emailContent_value (dom w).
Proof.
  destruct (analyzeEmail_uniform net (trimmed_text w)) as (evs & _ & Hrun).
  rewrite (Hrun w eq_refl). cbn [snd]. apply emailContent_after.
Qed.

(** A run either assigns the markup and raises no notification, ending
    with the region shown, or raises exactly one notification and does
    not assign the markup. *)
Theorem analyzeEmail_notifies_or_shows (net : Network) (w : World) :
  exists evs,
    analyzeEmail net w = (Normal tt, after evs w)
    /\ ((List.length (filter is_alert evs) = 0
         /\ existsb writes_body evs = true
         /\ results_style_display (dom (after evs w)) = "block")
        \/ (List.length (filter is_alert evs) = 1
            /\ existsb writes_body evs = false)).
Proof.
  destruct (analyzeEmail_uniform net (trimmed_text w)) as (evs & Hshape & Hrun).
  exists evs. split; [now apply Hrun|].
  destruct (run_shape_alerts _ _ Hshape) as [(Ha & Hb & Hd) | (Ha & Hb)].
  - left. repeat split; auto.
  - right. now split.
Qed.

(** When [fetch] rejects, the error is logged and notified with the
    fixed prefix before its message; [json()] is not called, nothing of
    the results is assigned, the region ends hidden. *)
Theorem fetch_rejection_is_reported (net : Network) (w : World) (e : Error) :
  trimmed_text w <> EmptyString ->
  net "/analyze" (analyze_request (trimmed_text w)) = Throw e ->
  exists w',
    analyzeEmail net w = (Normal tt, w')
    /\ trace w'
       = (trace w
          ++ [Assign (Set_analyzeBtn_innerHTML loading_label);
              Assign (Set_analyzeBtn_disabled true);
              Assign (Set_results_style_display "none");
              Fetch "/analyze" (analyze_request (trimmed_text w));
              ConsoleError "Error:" e;
              Alert (error_prefix ++ message e);
              Assign (Set_analyzeBtn_innerHTML idle_label);
              Assign (Set_analyzeBtn_disabled false)])%list
    /\ resultsBody_innerHTML (dom w') = resultsBody_innerHTML (dom w)
    /\ resultsHeader_className (dom w') = resultsHeader_className (dom w)
    /\ results_style_display (dom w') = "none".
Proof.
  intros Htext Hnet. eexists. split.
  - apply (analyzeEmail_reports net w e [] Htext); [constructor|].
    unfold request_and_display, fetch, bind, lift, emit.
    now rewrite Hnet.
  - rewrite trace_after. repeat split.
Qed.

(** When [response.json()] rejects (the body is not JSON), the error is
    logged and notified in the same way; nothing of the results is
    assigned, the region ends hidden. *)
Theorem json_rejection_is_reported (net : Network) (w : World) (e : Error) :
  trimmed_text w <> EmptyString ->
  net "/analyze" (analyze_request (trimmed_text w)) = Normal {| json := Throw e |} ->
  exists w',
    analyzeEmail net w = (Normal tt, w')
    /\ trace w'
       = (trace w
          ++ [Assign (Set_analyzeBtn_innerHTML loading_label);
              Assign (Set_analyzeBtn_disabled true);
              Assign (Set_results_style_display "none");
              Fetch "/analyze" (analyze_request (trimmed_text w));
              ResponseJson;
              ConsoleError "Error:" e;
              Alert (error_prefix ++ message e);
              Assign (Set_analyzeBtn_innerHTML idle_label);
              Assign (Set_analyzeBtn_disabled false)])%list
    /\ resultsBody_innerHTML (dom w') = resultsBody_innerHTML (dom w)
    /\ resultsHeader_className (dom w') = resultsHeader_className (dom w)
    /\ results_style_display (dom w') = "none".
Proof.
  intros Htext Hnet. eexists. split.
  - apply (analyzeEmail_reports net w e [ResponseJson] Htext); [constructor|].
    unfold request_and_display, fetch, response_json, bind, lift, emit.
    now rewrite Hnet.
  - rewrite trace_after. repeat split.
Qed.

Lemma request_and_display_analysis (net : Network) (text : string) (w : World)
    (data : value) (a : AnalysisResult) :
  net "/analyze" (analyze_request text) = Normal {| json := Normal data |} ->
  ToBoolean (property data "error") = false ->
  property data "analysis" = analysis_value a ->
  request_and_display net text w
  = (Normal tt,
     after (request_event text
            :: shown_events ("card-header bg-" ++ risk_color a ++ " text-white")
                 (analysis_markup a)) w).
Proof.
  intros Hnet Herr Han.
  unfold request_and_display, fetch, response_json, bind, lift, emit, throw, ret.
  rewrite Hnet. cbn [json].
  destruct data as [| | b | n | s | elems | props]; try discriminate.
  unfold property in Herr, Han. cbn [get] in *.
  destruct (own_property "error" props) as [err|];
    destruct (own_property "analysis" props) as [analysis|]; try discriminate;
    rewrite Herr, Han, displayResults_analysis; reflexivity.
Qed.

(** When the body carries a well-typed analysis and an [error] that is
    absent or falsy, the analysis is rendered: header class and markup
    are assigned, the region is shown and scrolled to, the button is
    restored. *)
Theorem analysis_is_shown (net : Network) (w : World) (data : value)
    (a : AnalysisResult) :
  trimmed_text w <> EmptyString ->
  net "/analyze" (analyze_request (trimmed_text w))
  = Normal {| json := Normal data |} ->
  ToBoolean (property data "error") = false ->
  property data "analysis" = analysis_value a ->
  exists w',
    analyzeEmail net w = (Normal tt, w')
    /\ trace w'
       = (trace w
          ++ [Assign (Set_analyzeBtn_innerHTML loading_label);
              Assign (Set_analyzeBtn_disabled true);
              Assign (Set_results_style_display "none");
              Fetch "/analyze" (analyze_request (trimmed_text w));
              ResponseJson;
              Assign (Set_resultsHeader_className
                        ("card-header bg-" ++ risk_color a ++ " text-white"));
              Assign (Set_resultsBody_innerHTML (analysis_markup a));
              Assign (Set_results_style_display "block");
              ScrollIntoView "smooth";
              Assign (Set_analyzeBtn_innerHTML idle_label);
              Assign (Set_analyzeBtn_disabled false)])%list
    /\ resultsBody_innerHTML (dom w') = analysis_markup a
    /\ resultsHeader_className (dom w')
       = "card-header bg-" ++ risk_color a ++ " text-white"
    /\ results_style_display (dom w') = "block"
    /\ button_idle (dom w').
Proof.
  intros Htext Hnet Herr Han. eexists. split.
  - apply (analyzeEmail_shows net w
             ("card-header bg-" ++ risk_color a ++ " text-white")
             (analysis_markup a) Htext).
    now apply request_and_display_analysis with (data := data).
  - rewrite trace_after. repeat split.
Qed.

(** When the [error] of the body is truthy, whatever its type and
    whatever else the body carries, an error is logged and notified and
    nothing of the results is assigned.  Its message is the string form
    of the [error]; when that has none, it is the [TypeError] of the
    conversion. *)
Theorem truthy_error_is_reported (net : Network) (w : World) (data : value) :
  trimmed_text w <> EmptyString ->
  net "/analyze" (analyze_request (trimmed_text w))
  = Normal {| json := Normal data |} ->
  ToBoolean (property data "error") = true ->
  exists e w',
    analyzeEmail net w = (Normal tt, w')
    /\ trace w'
       = (trace w
          ++ [Assign (Set_analyzeBtn_innerHTML loading_label);
              Assign (Set_analyzeBtn_disabled true);
              Assign (Set_results_style_display "none");
              Fetch "/analyze" (analyze_request (trimmed_text w));
              ResponseJson;
              ConsoleError "Error:" e;
              Alert (error_prefix ++ message e);
              Assign (Set_analyzeBtn_innerHTML idle_label);
              Assign (Set_analyzeBtn_disabled false)])%list
    /\ (forall msg, ToString (property data "error") = Normal msg -> e = new_Error msg)
    /\ (is_normal (ToString (property data "error")) = false -> name e = "TypeError")
    /\ resultsBody_innerHTML (dom w') = resultsBody_innerHTML (dom w)
    /\ resultsHeader_className (dom w') = resultsHeader_className (dom w)
    /\ results_style_display (dom w') = "none".
Proof.
  intros Htext Hnet Herr.
  assert (Hrun : exists e,
             request_and_display net (trimmed_text w) (after start_events w)
             = (Throw e, after [request_event (trimmed_text w); ResponseJson]
                           (after start_events w))
             /\ (forall msg, ToString (property data "error") = Normal msg ->
                 e = new_Error msg)
             /\ (is_normal (ToString (property data "error")) = false ->
                 name e = "TypeError")).
  { unfold request_and_display, fetch, response_json, bind, lift, emit, throw, ret.
    rewrite Hnet. cbn [json].
    destruct data as [| | b | n | s | elems | props]; try discriminate.
    unfold property in *. cbn [get] in *.
    destruct (own_property "error" props) as [err|]; [|discriminate].
    rewrite Herr.
    destruct (ToString err) as [msg|e] eqn:Hs.
    - exists (new_Error msg). split; [reflexivity|]. split.
      + intros msg' H. now injection H as <-.
      + discriminate.
    - exists e. split; [reflexivity|]. split.
      + discriminate.
      + intros _. exact (raises_ToString err e Hs). }
  destruct Hrun as (e & Hrun & Hmsg & Hname).
  exists e. eexists. split.
  - apply (analyzeEmail_reports net w e [ResponseJson] Htext); [constructor|].
    exact Hrun.
  - rewrite trace_after. repeat split; assumption.
Qed.

End Outcomes.

(** ** The renderer on any value *)

Section AnyValue.
Context {E : Engine}.

Lemma ToString_printable (x : value) : is_normal (ToString x) = printable x.
Proof.
  induction x as [| | b | n | s | elems IH | props] using value_ind_nested;
    cbn [ToString printable]; try reflexivity.
  - now destruct b.
  - induction IH as [|y rest Hy _ IHrest]; [reflexivity|].
    cbn [forallb]. rewrite <- Hy.
    assert (Hy' : is_normal (match y with
                             | VUndefined | VNull => Normal EmptyString
                             | _ => ToString y
                             end) = is_normal (ToString y)).
    { now destruct y. }
    revert IHrest Hy'.
    match goal with
    | |- context [bindC ?h _] =>
        match h with
        | match y with _ => _ end => destruct h as [s|e]
        end
    end; cbn [bindC is_normal]; intros IHrest <-; [|reflexivity].
    cbn [andb]. rewrite <- IHrest.
    match goal with
    | |- context [bindC ?t _] => destruct t as [ss|e]; reflexivity
    end.
  - now destruct (own_property "toString" props).
Qed.

Lemma ToString_cases (x : value) :
  (printable x = true /\ exists s, ToString x = Normal s)
  \/ (printable x = false /\ exists e, ToString x = Throw e).
Proof.
  rewrite <- ToString_printable.
  destruct (ToString x) as [s|e]; [left | right]; split; eauto.
Qed.

Lemma mapC_printable (wrap : string -> string) (elems : list value) :
  is_normal (mapC (fun y => s <~ ToString y ;; Normal (wrap s)) elems)
  = forallb printable elems.
Proof.
  induction elems as [|y rest IH]; [reflexivity|].
  cbn [mapC forallb]. rewrite <- ToString_printable, <- IH.
  destruct (ToString y) as [s|e]; [|reflexivity]. cbn [bindC is_normal andb].
  now destruct (mapC _ rest).
Qed.

Lemma keywords_block_array (elems : list value) :
  is_normal (keywords_block (VArray elems)) = forallb printable elems.
Proof.
  unfold keywords_block. cbn [length_gt_zero bindC].
  destruct elems as [|y rest]; [reflexivity|].
  cbn [List.length Nat.ltb Nat.leb call_map].
  rewrite <- (mapC_printable (fun k => badge_part_0 ++ k ++ badge_part_1)).
  unfold keyword_badge.
  now destruct (mapC _ (y :: rest)).
Qed.

Lemma urls_block_array (elems : list value) :
  is_normal (urls_block (VArray elems)) = forallb printable elems.
Proof.
  unfold urls_block. cbn [length_gt_zero bindC].
  destruct elems as [|y rest]; [reflexivity|].
  cbn [List.length Nat.ltb Nat.leb call_map].
  rewrite <- (mapC_printable (fun u => item_part_0 ++ u ++ item_part_1)).
  unfold url_item.
  now destruct (mapC _ (y :: rest)).
Qed.

Lemma call_toLowerCase_string (x : value) :
  is_normal (call_toLowerCase x) = is_string x.
Proof. now destruct x. Qed.

End AnyValue.

(** ** [displayResults] beyond well-typed analyses *)

Section RendererMore.
Context {E : Engine}.

(** An evidence block is rendered for a non-empty array only: for every
    other value of [detected_keywords] or [suspicious_urls] (a string, a
    number, an object, even one with a [length]) the block is absent or
    rendering fails. *)
Theorem evidence_block_needs_array (x : value) :
  (forall s, keywords_block x = Normal s -> s <> EmptyString ->
             exists elems, x = VArray elems /\ elems <> [])
  /\ (forall s, urls_block x = Normal s -> s <> EmptyString ->
                exists elems, x = VArray elems /\ elems <> []).
Proof.
  split; intros s Hs Hne;
    [unfold keywords_block in Hs | unfold urls_block in Hs];
    destruct x as [| | b | n | t | elems | props]; cbn [length_gt_zero bindC] in Hs;
    try discriminate;
    try (injection Hs as <-; contradiction).
  - destruct (negb (String.eqb t EmptyString)); cbn [call_map bindC] in Hs;
      [discriminate | injection Hs as <-; contradiction].
  - exists elems. split; [reflexivity|]. intros ->.
    cbn in Hs. injection Hs as <-. contradiction.
  - destruct (own_property "length" props) as [v|];
      [|cbn [bindC] in Hs; injection Hs as <-; contradiction].
    destruct (gt_zero v) as [[|]|e]; cbn [call_map bindC] in Hs;
      [discriminate | injection Hs as <-; contradiction | discriminate].
  - destruct (negb (String.eqb t EmptyString)); cbn [call_map bindC] in Hs;
      [discriminate | injection Hs as <-; contradiction].
  - exists elems. split; [reflexivity|]. intros ->.
    cbn in Hs. injection Hs as <-. contradiction.
  - destruct (own_property "length" props) as [v|];
      [|cbn [bindC] in Hs; injection Hs as <-; contradiction].
    destruct (gt_zero v) as [[|]|e]; cbn [call_map bindC] in Hs;
      [discriminate | injection Hs as <-; contradiction | discriminate].
Qed.

(** When the two evidence fields are arrays, rendering completes exactly
    when [risk_level] is a string and every interpolated value has a
    string form: [risk_color], [score], [total_urls] and each element of
    the two arrays. *)
Theorem rendering_completes_iff (x : value) (kws urls : list value) (w : World) :
  property x "detected_keywords" = VArray kws ->
  property x "suspicious_urls" = VArray urls ->
  is_normal (fst (displayResults x w))
  = (is_string (property x "risk_level")
     && printable (property x "risk_color")
     && printable (property x "score")
     && forallb printable kws
     && forallb printable urls
     && printable (property x "total_urls"))%bool.
Proof.
  intros Hk Hu.
  assert (Hnull : is_nullish x = false).
  { destruct x; try reflexivity; discriminate. }
  unfold displayResults, bind, lift.
  rewrite (destructure_property x Hnull), Hk, Hu.
  unfold header_className.
  destruct (ToString_cases (property x "risk_color")) as [(-> & c & ->) | (-> & e & ->)];
    cbn [bindC]; [|now rewrite andb_false_r].
  cbn [write emit].
  destruct (switch_risk_level (property x "risk_level"))
    as [[alertClass riskIcon] advice].
  unfold body_markup.
  rewrite <- call_toLowerCase_string.
  destruct (property x "risk_level") as [| | b | n | rl | l | props];
    try reflexivity.
  cbn [call_toLowerCase ToString bindC is_normal andb].
  destruct (ToString_cases (property x "score")) as [(-> & sc & ->) | (-> & e & ->)];
    cbn [bindC]; [|reflexivity].
  rewrite <- keywords_block_array, <- urls_block_array.
  destruct (keywords_block (VArray kws)) as [keywords|e]; [|reflexivity].
  destruct (urls_block (VArray urls)) as [items|e]; [|reflexivity].
  cbn [bindC is_normal andb].
  destruct (ToString_cases (property x "total_urls")) as [(-> & tu & ->) | (-> & e & ->)];
    reflexivity.
Qed.

(** An analysis without [risk_color], [score] and [total_urls] is
    rendered all the same: each of the three prints as the word
    undefined. *)
Theorem missing_fields_print_undefined (props : list (string * value))
    (rl : string) (kws urls : list string) (w : World) :
  own_property "risk_level" props = Some (VString rl) ->
  own_property "detected_keywords" props = Some (VArray (map VString kws)) ->
  own_property "suspicious_urls" props = Some (VArray (map VString urls)) ->
  own_property "risk_color" props = None ->
  own_property "score" props = None ->
  own_property "total_urls" props = None ->
  exists w' alertClass riskIcon advice,
    displayResults (VObject props) w = (Normal tt, w')
    /\ switch_risk_level (VString rl) = (alertClass, riskIcon, advice)
    /\ resultsHeader_className (dom w') = "card-header bg-undefined text-white"
    /\ resultsBody_innerHTML (dom w')
       = body_part_0 ++ alertClass ++ body_part_1 ++ String_toLowerCase rl
         ++ body_part_2 ++ riskIcon ++ body_part_3 ++ rl ++ body_part_4
         ++ "undefined" ++ body_part_5 ++ advice ++ body_part_6
         ++ block keywords_part_0 keywords_part_1 (map badge kws)
         ++ body_part_7
         ++ block urls_part_0 urls_part_1 (map item urls)
         ++ body_part_8 ++ "undefined" ++ body_part_9
    /\ results_style_display (dom w') = "block".
Proof.
  intros Hrl Hk Hu Hc Hs Ht.
  destruct (switch_risk_level (VString rl)) as [[alertClass riskIcon] advice] eqn:Hsw.
  eexists. exists alertClass, riskIcon, advice.
  unfold displayResults, bind, lift. cbn [destructure get].
  rewrite Hrl, Hk, Hu, Hc, Hs, Ht. cbn [bindC header_className ToString write emit].
  rewrite Hsw. unfold body_markup.
  cbn [call_toLowerCase ToString bindC].
  rewrite keywords_block_strings, urls_block_strings. cbn [bindC].
  split; [reflexivity|]. repeat split.
Qed.

(** Nothing is escaped, so markup in a keyword can pass for the seam
    between two badges: a keyword made of two texts around the closing
    and the opening of a badge is rendered exactly as the two texts as
    separate keywords. *)
Theorem keyword_can_forge_a_badge (k1 k2 : string) (rest : list string) :
  keywords_block
    (VArray (map VString ((k1 ++ badge_part_1 ++ badge_part_0 ++ k2) :: rest)))
  = keywords_block (VArray (map VString (k1 :: k2 :: rest))).
Proof.
  rewrite !keywords_block_strings.
  rewrite !block_nonempty by discriminate.
  cbn [map]. rewrite !concat_empty_cons. unfold badge.
  now rewrite !append_assoc.
Qed.

Lemma dom_after_display (className innerHTML : string) (evs : list event)
    (w : World) :
  (evs = [] \/ (exists c, evs = [Assign (Set_resultsHeader_className c)])
   \/ (exists c h, evs = [Assign (Set_resultsHeader_className c);
                          Assign (Set_resultsBody_innerHTML h);
                          Assign (Set_results_style_display "block");
                          ScrollIntoView "smooth"])) ->
  dom (after [Assign (Set_resultsHeader_className className);
              Assign (Set_resultsBody_innerHTML innerHTML);
              Assign (Set_results_style_display "block");
              ScrollIntoView "smooth"] (after evs w))
  = dom (after [Assign (Set_resultsHeader_className className);
                Assign (Set_resultsBody_innerHTML innerHTML);
                Assign (Set_results_style_display "block");
                ScrollIntoView "smooth"] w).
Proof.
  intros [-> | [(c & ->) | (c & h & ->)]]; reflexivity.
Qed.

(** A completed rendering replaces what an earlier call left, whether
    that call completed or failed half-way: the page is as if the earlier
    call had not been made. *)
Theorem displayResults_replaces (x y : value) (w : World) :
  fst (displayResults y w) = Normal tt ->
  dom (snd (displayResults y (snd (displayResults x w))))
  = dom (snd (displayResults y w)).
Proof.
  intros Hy.
  destruct (displayResults_uniform y)
    as [(className & innerHTML & Hrun) | [(e & Hrun) | (e & c & Hrun)]];
    [|rewrite Hrun in Hy; discriminate | rewrite Hrun in Hy; discriminate].
  rewrite !Hrun. cbn [snd].
  destruct (displayResults_uniform x)
    as [(c & h & Hx) | [(e & Hx) | (e & c & Hx)]]; rewrite Hx; cbn [snd].
  - apply dom_after_display. right; right. now exists c, h.
  - reflexivity.
  - apply dom_after_display. right; left. now exists c.
Qed.

(** [displayResults] never touches the text of the form or the button,
    and a call that fails leaves the markup and the display of the region
    as they were: both are assigned only after the whole markup has been
    built. *)
Theorem displayResults_frame (x : value) (w : World) :
  let w' := snd (displayResults x w) in
  emailContent_value (dom w') = emailContent_value (dom w)
  /\ analyzeBtn_innerHTML (dom w') = analyzeBtn_innerHTML (dom w)
  /\ analyzeBtn_disabled (dom w') = analyzeBtn_disabled (dom w)
  /\ (is_normal (fst (displayResults x w)) = false ->
      resultsBody_innerHTML (dom w') = resultsBody_innerHTML (dom w)
      /\ results_style_display (dom w') = results_style_display (dom w)).
Proof.
  cbv zeta.
  destruct (displayResults_uniform x)
    as [(c & h & Hx) | [(e & Hx) | (e & c & Hx)]]; rewrite Hx; cbn [fst snd].
  - repeat split; discriminate.
  - repeat split.
  - repeat split.
Qed.

End RendererMore.

(** ** Runs one after another *)

Section Sessions.
Context {E : Engine}.

(** After any run, whatever its outcome, the form can be submitted
    again: the same text with a network that now answers with a
    well-typed analysis gets that analysis rendered and shown. *)
Theorem resubmission_shows_results (first second : Network) (w : World)
    (data : value) (a : AnalysisResult) :
  trimmed_text w <> EmptyString ->
  second "/analyze" (analyze_request (trimmed_text w))
  = Normal {| json := Normal data |} ->
  ToBoolean (property data "error") = false ->
  property data "analysis" = analysis_value a ->
  let w1 := snd (analyzeEmail first w) in
  let w2 := snd (analyzeEmail second w1) in
  fst (analyzeEmail second w1) = Normal tt
  /\ resultsBody_innerHTML (dom w2) = analysis_markup a
  /\ resultsHeader_className (dom w2)
     = "card-header bg-" ++ risk_color a ++ " text-white"
  /\ results_style_display (dom w2) = "block"
  /\ button_idle (dom w2).
Proof.
  intros Htext Hnet Herr Han. cbv zeta.
  destruct (analyzeEmail_uniform first (trimmed_text w)) as (evs & _ & Hfirst).
  rewrite (Hfirst w eq_refl). cbn [snd].
  assert (Hsame : trimmed_text (after evs w) = trimmed_text w)
    by apply trimmed_text_after.
  assert (Htext1 : trimmed_text (after evs w) <> EmptyString) by now rewrite Hsame.
  rewrite (analyzeEmail_shows second (after evs w)
             ("card-header bg-" ++ risk_color a ++ " text-white")
             (analysis_markup a) Htext1).
  - repeat split.
  - apply request_and_display_analysis with (data := data); try assumption.
    now rewrite Hsame.
Qed.



Lemma filter_app_length {A} (f : A -> bool) (l l' : list A) :
  List.length (filter f (l ++ l')) = List.length (filter f l) + List.length (filter f l').
Proof.
  now rewrite filter_app, length_app.
Qed.

Lemma act_fetches (a : action) (w : World) :
  List.length (filter is_fetch (trace (act a w)))
  <= List.length (filter is_fetch (trace w)) + (if is_submit a then 1 else 0).
Proof.
  destruct a as [text | net]; cbn [act is_submit trace]; [lia|].
  unfold submit_listener.
  destruct (analyzeEmail_uniform net (trimmed_text w)) as (evs & Hshape & Hrun).
  rewrite (Hrun w eq_refl). cbn [snd].
  rewrite trace_after, filter_app_length.
  pose proof (run_shape_fetches _ _ Hshape). lia.
Qed.

(** The script sends at most one request per submission: over any
    session the number of requests grows by no more than the number of
    submissions, and typing sends none. *)
Theorem session_requests_bounded (actions : list action) (w : World) :
  List.length (filter is_fetch (trace (session actions w)))
  <= List.length (filter is_fetch (trace w)) + List.length (filter is_submit actions).
Proof.
  revert w. induction actions as [|a actions IH]; intros w; [cbn; lia|].
  change (session (a :: actions) w) with (session actions (act a w)).
  pose proof (IH (act a w)) as Hrest.
  pose proof (act_fetches a w) as Hstep.
  cbn [filter]. destruct (is_submit a); cbn [List.length]; lia.
Qed.

Lemma call_toLowerCase_throws (x : value) :
  is_string x = false -> exists e, call_toLowerCase x = Throw e.
Proof.
  destruct x; try discriminate; intros _; eexists; reflexivity.
Qed.

(** A rendering that fails after the header leaves the header restyled:
    when the analysis is there but its [risk_level] is not a string, the
    class of the header is assigned from its [risk_color] before the
    [TypeError] is thrown, and stays so after the error is reported. *)
Theorem failed_rendering_restyles_header (net : Network) (w : World)
    (data : value) (color : string) :
  trimmed_text w <> EmptyString ->
  net "/analyze" (analyze_request (trimmed_text w))
  = Normal {| json := Normal data |} ->
  has_property data "error" = false ->
  is_nullish (property data "analysis") = false ->
  is_string (property (property data "analysis") "risk_level") = false ->
  ToString (property (property data "analysis") "risk_color") = Normal color ->
  exists e w',
    name e = "TypeError"
    /\ analyzeEmail net w = (Normal tt, w')
    /\ trace w'
       = (trace w
          ++ [Assign (Set_analyzeBtn_innerHTML loading_label);
              Assign (Set_analyzeBtn_disabled true);
              Assign (Set_results_style_display "none");
              Fetch "/analyze" (analyze_request (trimmed_text w));
              ResponseJson;
              Assign (Set_resultsHeader_className
                        ("card-header bg-" ++ color ++ " text-white"));
              ConsoleError "Error:" e;
              Alert (error_prefix ++ message e);
              Assign (Set_analyzeBtn_innerHTML idle_label);
              Assign (Set_analyzeBtn_disabled false)])%list
    /\ resultsHeader_className (dom w') = "card-header bg-" ++ color ++ " text-white"
    /\ resultsBody_innerHTML (dom w') = resultsBody_innerHTML (dom w)
    /\ results_style_display (dom w') = "none".
Proof.
  intros Htext Hnet Herr Hnull Hrl Hcolor.
  set (x := property data "analysis") in *.
  assert (Hrun : exists e,
             name e = "TypeError"
             /\ request_and_display net (trimmed_text w) (after start_events w)
                = (Throw e,
                   after [request_event (trimmed_text w); ResponseJson;
                          Assign (Set_resultsHeader_className
                                    ("card-header bg-" ++ color ++ " text-white"))]
                     (after start_events w))).
  { unfold request_and_display, fetch, response_json, bind, lift, emit, throw, ret.
    rewrite Hnet. cbn [json].
    destruct (get_absent data "error" Herr) as [(t & Hget) | Hget].
    { exfalso. subst x. unfold property in Hnull.
      destruct data as [| | b | n | s | elems | props]; cbn [get] in *;
        try discriminate.
      destruct (own_property "error" props); discriminate. }
    rewrite Hget. cbn [ToBoolean].
    rewrite (get_property data "error" "analysis" _ Hget). fold x.
    unfold displayResults, bind, lift.
    rewrite (destructure_property x Hnull).
    unfold header_className. rewrite Hcolor. cbn [bindC write emit].
    destruct (switch_risk_level (property x "risk_level"))
      as [[alertClass riskIcon] advice].
    unfold body_markup.
    destruct (call_toLowerCase_throws _ Hrl) as (e & He).
    rewrite He. cbn [bindC]. exists e. split; [|reflexivity].
    exact (raises_call_toLowerCase _ e He). }
  destruct Hrun as (e & He & Hrun).
  exists e. eexists. split; [exact He|]. split.
  - apply (analyzeEmail_reports net w e
             [ResponseJson;
              Assign (Set_resultsHeader_className
                        ("card-header bg-" ++ color ++ " text-white"))] Htext);
      [constructor | exact Hrun].
  - rewrite trace_after. repeat split.
Qed.

End Sessions.

(** * The claims on concrete runs *)

#[local] Existing Instance SmallEngine.engine.

(** C5 as stated fails when the [error] of the body is the empty string:
    the body has an [error] property, yet no notification is raised and
    the analysis that comes with it is rendered and shown. *)
Lemma C5_falsy_error_is_ignored :
  let data := VObject [("error", VString EmptyString);
                       ("analysis", analysis_value SmallEngine.scenario_A)] in
  let w' := snd (analyzeEmail (replies data) (SmallEngine.page "hello")) in
  has_property data "error" = true
  /\ trimmed_text (SmallEngine.page "hello") <> EmptyString
  /\ existsb is_alert (trace w') = false
  /\ resultsBody_innerHTML (dom w') = analysis_markup SmallEngine.scenario_A
  /\ results_style_display (dom w') = "block".
Proof.
  cbv zeta. split; [reflexivity|]. split; [discriminate|].
  split; [vm_compute; reflexivity|]. split; vm_compute; reflexivity.
Qed.

(** C2 on a text of blanks and a line break. *)
Lemma C2_empty_input_witness :
  let w := SmallEngine.page "  
  " in
  trimmed_text w = EmptyString
  /\ exists w',
       analyzeEmail SmallEngine.scenario_D w = (Normal tt, w')
       /\ trace w' = (trace w ++ [Alert empty_prompt])%list
       /\ dom w' = dom w.
Proof.
  cbv zeta. split; [reflexivity|].
  apply (C2_empty_input (E := SmallEngine.engine)). reflexivity.
Defined.

(** C4 on a request that the network rejects (scenario D). *)
Lemma C4_loading_indicator_witness :
  let w := SmallEngine.page "hello" in
  trimmed_text w <> EmptyString
  /\ exists mid w',
       analyzeEmail SmallEngine.scenario_D w = (Normal tt, w')
       /\ trace w'
          = (trace w
             ++ [Assign (Set_analyzeBtn_innerHTML loading_label);
                 Assign (Set_analyzeBtn_disabled true);
                 Assign (Set_results_style_display "none");
                 Fetch "/analyze" (analyze_request (trimmed_text w))]
             ++ mid
             ++ [Assign (Set_analyzeBtn_innerHTML idle_label);
                 Assign (Set_analyzeBtn_disabled false)])%list
       /\ existsb touches_button mid = false
       /\ existsb is_fetch mid = false
       /\ analyzeBtn_innerHTML (dom w') = idle_label
       /\ analyzeBtn_disabled (dom w') = false.
Proof.
  cbv zeta. split; [discriminate|].
  apply (C4_loading_indicator (E := SmallEngine.engine)). discriminate.
Defined.

(** C5 on the body of scenario C. *)
Lemma C5_service_error_witness :
  let w := SmallEngine.page "hello" in
  let props := [("error", VString "malformed payload")] in
  trimmed_text w <> EmptyString
  /\ replies (VObject props) "/analyze" (analyze_request (trimmed_text w))
     = Normal {| json := Normal (VObject props) |}
  /\ own_property "error" props = Some (VString "malformed payload")
  /\ "malformed payload" <> EmptyString
  /\ exists w',
       analyzeEmail (replies (VObject props)) w = (Normal tt, w')
       /\ trace w'
          = (trace w
             ++ [Assign (Set_analyzeBtn_innerHTML loading_label);
                 Assign (Set_analyzeBtn_disabled true);
                 Assign (Set_results_style_display "none");
                 Fetch "/analyze" (analyze_request (trimmed_text w));
                 ResponseJson;
                 ConsoleError "Error:" (new_Error "malformed payload");
                 Alert (error_prefix ++ "malformed payload");
                 Assign (Set_analyzeBtn_innerHTML idle_label);
                 Assign (Set_analyzeBtn_disabled false)])%list
       /\ resultsBody_innerHTML (dom w') = resultsBody_innerHTML (dom w)
       /\ resultsHeader_className (dom w') = resultsHeader_className (dom w)
       /\ results_style_display (dom w') = "none".
Proof.
  cbv zeta. split; [discriminate|]. split; [reflexivity|].
  split; [reflexivity|]. split; [discriminate|].
  apply (C5_service_error (E := SmallEngine.engine))
    with (props := [("error", VString "malformed payload")]).
  - discriminate.
  - reflexivity.
  - reflexivity.
  - discriminate.
Defined.

(** C6 on scenario A and on the same analysis with the color [warning]. *)
Lemma C6_header_token_witness :
  let a := SmallEngine.scenario_A in
  let b := {| risk_level := "ALTO"; risk_color := "warning";
              score := Some 85%Z;
              detected_keywords := ["free"; "click"];
              suspicious_urls := ["http://bit.ly/x"];
              total_urls := Some 1%Z |} in
  let w := SmallEngine.page "hello" in
  risk_level a = risk_level b
  /\ risk_color a <> risk_color b
  /\ exists wa wb,
       displayResults (analysis_value a) w = (Normal tt, wa)
       /\ displayResults (analysis_value b) w = (Normal tt, wb)
       /\ resultsHeader_className (dom wa)
          = "card-header bg-" ++ risk_color a ++ " text-white"
       /\ resultsHeader_className (dom wb)
          = "card-header bg-" ++ risk_color b ++ " text-white"
       /\ resultsHeader_className (dom wa) <> resultsHeader_className (dom wb).
Proof.
  cbv zeta. split; [reflexivity|]. split; [discriminate|].
  apply (C6_header_token (E := SmallEngine.engine)).
  - reflexivity.
  - discriminate.
Defined.

(** C9 on a body that is the empty object. *)
Lemma C9_unusable_response_witness :
  let w := SmallEngine.page "hello" in
  let data := VObject [] in
  trimmed_text w <> EmptyString
  /\ replies data "/analyze" (analyze_request (trimmed_text w))
     = Normal {| json := Normal data |}
  /\ has_property data "error" = false
  /\ usable_analysis (property data "analysis") = false
  /\ exists e before w',
       name e = "TypeError"
       /\ analyzeEmail (replies data) w = (Normal tt, w')
       /\ trace w'
          = (trace w
             ++ [Assign (Set_analyzeBtn_innerHTML loading_label);
                 Assign (Set_analyzeBtn_disabled true);
                 Assign (Set_results_style_display "none");
                 Fetch "/analyze" (analyze_request (trimmed_text w));
                 ResponseJson]
             ++ before
             ++ [ConsoleError "Error:" e;
                 Alert (error_prefix ++ message e);
                 Assign (Set_analyzeBtn_innerHTML idle_label);
                 Assign (Set_analyzeBtn_disabled false)])%list
       /\ (before = []
           \/ exists className,
                before = [Assign (Set_resultsHeader_className className)])
       /\ resultsBody_innerHTML (dom w') = resultsBody_innerHTML (dom w)
       /\ results_style_display (dom w') = "none"
       /\ analyzeBtn_innerHTML (dom w') = idle_label
       /\ analyzeBtn_disabled (dom w') = false.
Proof.
  cbv zeta. split; [discriminate|]. split; [reflexivity|].
  split; [reflexivity|]. split; [reflexivity|].
  apply (C9_unusable_response (E := SmallEngine.engine)) with (data := VObject []).
  - discriminate.
  - reflexivity.
  - reflexivity.
  - reflexivity.
Defined.

(** C10 on a page that shows earlier results, with the body of
    scenario C as the answer. *)
Lemma C10_results_region_witness :
  let w := SmallEngine.page_after_A "hello" in
  let net := replies SmallEngine.scenario_C in
  trimmed_text w <> EmptyString
  /\ exists mid w',
       analyzeEmail net w = (Normal tt, w')
       /\ trace w'
          = (trace w
             ++ [Assign (Set_analyzeBtn_innerHTML loading_label);
                 Assign (Set_analyzeBtn_disabled true);
                 Assign (Set_results_style_display "none");
                 Fetch "/analyze" (analyze_request (trimmed_text w))]
             ++ mid
             ++ [Assign (Set_analyzeBtn_innerHTML idle_label);
                 Assign (Set_analyzeBtn_disabled false)])%list
       /\ ((exists className innerHTML,
               mid = [ResponseJson;
                      Assign (Set_resultsHeader_className className);
                      Assign (Set_resultsBody_innerHTML innerHTML);
                      Assign (Set_results_style_display "block");
                      ScrollIntoView "smooth"]
               /\ resultsBody_innerHTML (dom w') = innerHTML
               /\ results_style_display (dom w') = "block")
           \/ (exists e before,
                 mid = (before ++ [ConsoleError "Error:" e;
                                   Alert (error_prefix ++ message e)])%list
                 /\ existsb touches_results before = false
                 /\ resultsBody_innerHTML (dom w') = resultsBody_innerHTML (dom w)
                 /\ results_style_display (dom w') = "none")).
Proof.
  cbv zeta. split; [discriminate|].
  apply (C10_results_region (E := SmallEngine.engine)). discriminate.
Defined.

(** ** The scenarios of the specification, run *)

(** Scenario A: a high-risk analysis is rendered and shown. *)
Example scenario_A_run :
  let w := SmallEngine.page "Win a free prize! Click http://bit.ly/x now" in
  analyzeEmail
    (replies (VObject [("analysis", analysis_value SmallEngine.scenario_A)])) w
  = (Normal tt,
     after (start_events
            ++ request_event "Win a free prize! Click http://bit.ly/x now"
            :: shown_events "card-header bg-danger text-white"
                 (analysis_markup SmallEngine.scenario_A)
            ++ finish_events) w).
Proof. vm_compute. reflexivity. Qed.

Example scenario_A_presentation :
  switch_risk_level (VString (risk_level SmallEngine.scenario_A))
  = ("alert-danger", "🚨",
     "NO interactúes con este correo. Es muy probable que sea phishing.")
  /\ keywords_block (VArray (map VString (detected_keywords SmallEngine.scenario_A)))
     = Normal (keywords_part_0
               ++ (badge_part_0 ++ "free" ++ badge_part_1)
               ++ (badge_part_0 ++ "click" ++ badge_part_1)
               ++ keywords_part_1)
  /\ urls_block (VArray (map VString (suspicious_urls SmallEngine.scenario_A)))
     = Normal (urls_part_0
               ++ (item_part_0 ++ "http://bit.ly/x" ++ item_part_1)
               ++ urls_part_1).
Proof. repeat split; vm_compute; reflexivity. Qed.

(** Scenario B: a low-risk analysis gets the default row and no evidence
    block. *)
Example scenario_B_presentation :
  switch_risk_level (VString (risk_level SmallEngine.scenario_B))
  = ("alert-success", "✅",
     "El correo parece seguro, pero siempre mantén precaución.")
  /\ analysis_markup SmallEngine.scenario_B
     = alert_of SmallEngine.scenario_B ++ body_part_7
       ++ body_part_8 ++ "0" ++ body_part_9.
Proof. split; vm_compute; reflexivity. Qed.

(** Scenario C: the service reports an error. *)
Example scenario_C_run :
  let w := SmallEngine.page "hello" in
  analyzeEmail (replies SmallEngine.scenario_C) w
  = (Normal tt,
     after (start_events ++ request_event "hello"
            :: [ResponseJson;
                ConsoleError "Error:" (new_Error "malformed payload");
                Alert "Error al analizar el correo: malformed payload"]
            ++ finish_events) w).
Proof. vm_compute. reflexivity. Qed.

(** Scenario D: the request is rejected. *)
Example scenario_D_run :
  let w := SmallEngine.page "hello" in
  analyzeEmail SmallEngine.scenario_D w
  = (Normal tt,
     after (start_events ++ request_event "hello"
            :: [ConsoleError "Error:"
                  {| name := "TypeError"; message := "Failed to fetch" |};
                Alert "Error al analizar el correo: Failed to fetch"]
            ++ finish_events) w).
Proof. vm_compute. reflexivity. Qed.

(** The tier names are compared as they are: another case is another
    name. *)
Example lower_case_tier_is_default :
  tier_of (VString "alto") = OTHER
  /\ switch_risk_level (VString "alto")
     = ("alert-success", "✅",
        "El correo parece seguro, pero siempre mantén precaución.").
Proof. split; reflexivity. Qed.

(** Markup in a keyword goes into the badge as it is. *)
Example markup_in_keyword :
  keywords_block (VArray [VString "<img src=x onerror=alert(1)>"])
  = Normal (keywords_part_0
            ++ badge_part_0 ++ "<img src=x onerror=alert(1)>" ++ badge_part_1
            ++ keywords_part_1).
Proof. vm_compute. reflexivity. Qed.

(** An array prints as its elements joined by commas, null as nothing. *)
Example ToString_array :
  ToString (VArray [VNumber (Some 1%Z); VNull;
                    VArray [VString "a"; VBool true]; VObject []])
  = Normal "1,,a,true,[object Object]".
Proof. reflexivity. Qed.

(** An analysis with the three fields the renderer needs is rendered,
    whatever the others are: absent fields print as undefined. *)
Example partial_analysis_is_rendered :
  let analysis := VObject [("risk_level", VString "MEDIO");
                           ("detected_keywords", VArray []);
                           ("suspicious_urls", VNumber (Some 3%Z))] in
  usable_analysis analysis = true
  /\ fst (displayResults analysis (SmallEngine.page "hello")) = Normal tt
  /\ resultsHeader_className
       (dom (snd (displayResults analysis (SmallEngine.page "hello"))))
     = "card-header bg-undefined text-white".
Proof. repeat split; vm_compute; reflexivity. Qed.

(** An analysis that is the empty object: the header class is assigned,
    then reading [toLowerCase] of the absent [risk_level] throws. *)
Example empty_analysis_run :
  let w := SmallEngine.page "hello" in
  analyzeEmail (replies (VObject [("analysis", VObject [])])) w
  = (Normal tt,
     after (start_events ++ request_event "hello"
            :: [ResponseJson;
                Assign (Set_resultsHeader_className
                          "card-header bg-undefined text-white")]
            ++ report_events (TypeError (NullishProperty "toLowerCase"))
            ++ finish_events) w).
Proof. vm_compute. reflexivity. Qed.

(** A failure after a success: the earlier markup is still the body of
    the region, and the region is hidden. *)
Example earlier_results_hidden :
  let first := replies (VObject [("analysis", analysis_value SmallEngine.scenario_A)]) in
  let second := SmallEngine.scenario_D in
  let w1 := snd (analyzeEmail first (SmallEngine.page "hello")) in
  let w2 := snd (analyzeEmail second w1) in
  results_style_display (dom w1) = "block"
  /\ results_style_display (dom w2) = "none"
  /\ resultsBody_innerHTML (dom w2) = analysis_markup SmallEngine.scenario_A.
Proof. repeat split; vm_compute; reflexivity. Qed.

(** * The further properties on concrete runs *)

(** Two pages with the same trimmed text: one at rest, one showing earlier results. *)
Lemma analyzeEmail_reads_only_the_text_witness :
  let net := SmallEngine.scenario_D in
  let w := SmallEngine.page " hello " in
  let w' := SmallEngine.page_after_A "hello" in
  (trimmed_text w = trimmed_text w')
  /\ (exists evs,
    analyzeEmail net w = (Normal tt, after evs w)
    /\ analyzeEmail net w' = (Normal tt, after evs w')).
Proof.
  cbv zeta.
  split; [first [reflexivity | discriminate | (split; reflexivity) | (vm_compute; reflexivity)]|].
  apply (analyzeEmail_reads_only_the_text (E := SmallEngine.engine) (SmallEngine.scenario_D) (SmallEngine.page " hello ") (SmallEngine.page_after_A "hello"));
    first [reflexivity | discriminate | (split; reflexivity) | (vm_compute; reflexivity)].
Defined.

(** The rejected request of scenario D. *)
Lemma fetch_rejection_is_reported_witness :
  let net := SmallEngine.scenario_D in
  let w := SmallEngine.page "hello" in
  let e := {| name := "TypeError"; message := "Failed to fetch" |} in
  (trimmed_text w <> EmptyString)
  /\ (net "/analyze" (analyze_request (trimmed_text w)) = Throw e)
  /\ (exists w',
    analyzeEmail net w = (Normal tt, w')
    /\ trace w'
       = (trace w
          ++ [Assign (Set_analyzeBtn_innerHTML loading_label);
              Assign (Set_analyzeBtn_disabled true);
              Assign (Set_results_style_display "none");
              Fetch "/analyze" (analyze_request (trimmed_text w));
              ConsoleError "Error:" e;
              Alert (error_prefix ++ message e);
              Assign (Set_analyzeBtn_innerHTML idle_label);
              Assign (Set_analyzeBtn_disabled false)])%list
    /\ resultsBody_innerHTML (dom w') = resultsBody_innerHTML (dom w)
    /\ resultsHeader_className (dom w') = resultsHeader_className (dom w)
    /\ results_style_display (dom w') = "none").
Proof.
  cbv zeta.
  split; [first [reflexivity | discriminate | (split; reflexivity) | (vm_compute; reflexivity)]|].
  split; [first [reflexivity | discriminate | (split; reflexivity) | (vm_compute; reflexivity)]|].
  apply (fetch_rejection_is_reported (E := SmallEngine.engine) (SmallEngine.scenario_D) (SmallEngine.page "hello") ({| name := "TypeError"; message := "Failed to fetch" |}));
    first [reflexivity | discriminate | (split; reflexivity) | (vm_compute; reflexivity)].
Defined.

(** A reply whose body is not JSON. *)
Lemma json_rejection_is_reported_witness :
  let e := {| name := "SyntaxError"; message := "Unexpected token < in JSON" |} in
  let net := (fun _ _ => Normal {| json := Throw e |}) : Network in
  let w := SmallEngine.page "hello" in
  (trimmed_text w <> EmptyString)
  /\ (net "/analyze" (analyze_request (trimmed_text w)) = Normal {| json := Throw e |})
  /\ (exists w',
    analyzeEmail net w = (Normal tt, w')
    /\ trace w'
       = (trace w
          ++ [Assign (Set_analyzeBtn_innerHTML loading_label);
              Assign (Set_analyzeBtn_disabled true);
              Assign (Set_results_style_display "none");
              Fetch "/analyze" (analyze_request (trimmed_text w));
              ResponseJson;
              ConsoleError "Error:" e;
              Alert (error_prefix ++ message e);
              Assign (Set_analyzeBtn_innerHTML idle_label);
              Assign (Set_analyzeBtn_disabled false)])%list
    /\ resultsBody_innerHTML (dom w') = resultsBody_innerHTML (dom w)
    /\ resultsHeader_className (dom w') = resultsHeader_className (dom w)
    /\ results_style_display (dom w') = "none").
Proof.
  cbv zeta.
  split; [first [reflexivity | discriminate | (split; reflexivity) | (vm_compute; reflexivity)]|].
  split; [first [reflexivity | discriminate | (split; reflexivity) | (vm_compute; reflexivity)]|].
  apply (json_rejection_is_reported (E := SmallEngine.engine) ((fun _ _ => Normal {| json := Throw ({| name := "SyntaxError"; message := "Unexpected token < in JSON" |}) |}) : Network) (SmallEngine.page "hello") ({| name := "SyntaxError"; message := "Unexpected token < in JSON" |}));
    first [reflexivity | discriminate | (split; reflexivity) | (vm_compute; reflexivity)].
Defined.

(** The analysis of scenario A, with an [error] that is null. *)
Lemma analysis_is_shown_witness :
  let a := SmallEngine.scenario_A in
  let data := VObject [("error", VNull); ("analysis", analysis_value a)] in
  let net := replies data in
  let w := SmallEngine.page "hello" in
  (trimmed_text w <> EmptyString)
  /\ (net "/analyze" (analyze_request (trimmed_text w))
  = Normal {| json := Normal data |})
  /\ (ToBoolean (property data "error") = false)
  /\ (property data "analysis" = analysis_value a)
  /\ (exists w',
    analyzeEmail net w = (Normal tt, w')
    /\ trace w'
       = (trace w
          ++ [Assign (Set_analyzeBtn_innerHTML loading_label);
              Assign (Set_analyzeBtn_disabled true);
              Assign (Set_results_style_display "none");
              Fetch "/analyze" (analyze_request (trimmed_text w));
              ResponseJson;
              Assign (Set_resultsHeader_className
                        ("card-header bg-" ++ risk_color a ++ " text-white"));
              Assign (Set_resultsBody_innerHTML (analysis_markup a));
              Assign (Set_results_style_display "block");
              ScrollIntoView "smooth";
              Assign (Set_analyzeBtn_innerHTML idle_label);
              Assign (Set_analyzeBtn_disabled false)])%list
    /\ resultsBody_innerHTML (dom w') = analysis_markup a
    /\ resultsHeader_className (dom w')
       = "card-header bg-" ++ risk_color a ++ " text-white"
    /\ results_style_display (dom w') = "block"
    /\ button_idle (dom w')).
Proof.
  cbv zeta.
  split; [first [reflexivity | discriminate | (split; reflexivity) | (vm_compute; reflexivity)]|].
  split; [first [reflexivity | discriminate | (split; reflexivity) | (vm_compute; reflexivity)]|].
  split; [first [reflexivity | discriminate | (split; reflexivity) | (vm_compute; reflexivity)]|].
  split; [first [reflexivity | discriminate | (split; reflexivity) | (vm_compute; reflexivity)]|].
  apply (analysis_is_shown (E := SmallEngine.engine) (replies (VObject [("error", VNull); ("analysis", analysis_value (SmallEngine.scenario_A))])) (SmallEngine.page "hello") (VObject [("error", VNull); ("analysis", analysis_value (SmallEngine.scenario_A))]) (SmallEngine.scenario_A));
    first [reflexivity | discriminate | (split; reflexivity) | (vm_compute; reflexivity)].
Defined.

(** An [error] that is [true], beside a well-typed analysis. *)
Lemma truthy_error_is_reported_witness :
  let data := VObject [("error", VBool true); ("analysis", analysis_value SmallEngine.scenario_A)] in
  let net := replies data in
  let w := SmallEngine.page "hello" in
  (trimmed_text w <> EmptyString)
  /\ (net "/analyze" (analyze_request (trimmed_text w))
  = Normal {| json := Normal data |})
  /\ (ToBoolean (property data "error") = true)
  /\ (exists e w',
    analyzeEmail net w = (Normal tt, w')
    /\ trace w'
       = (trace w
          ++ [Assign (Set_analyzeBtn_innerHTML loading_label);
              Assign (Set_analyzeBtn_disabled true);
              Assign (Set_results_style_display "none");
              Fetch "/analyze" (analyze_request (trimmed_text w));
              ResponseJson;
              ConsoleError "Error:" e;
              Alert (error_prefix ++ message e);
              Assign (Set_analyzeBtn_innerHTML idle_label);
              Assign (Set_analyzeBtn_disabled false)])%list
    /\ (forall msg, ToString (property data "error") = Normal msg -> e = new_Error msg)
    /\ (is_normal (ToString (property data "error")) = false -> name e = "TypeError")
    /\ resultsBody_innerHTML (dom w') = resultsBody_innerHTML (dom w)
    /\ resultsHeader_className (dom w') = resultsHeader_className (dom w)
    /\ results_style_display (dom w') = "none").
Proof.
  cbv zeta.
  split; [first [reflexivity | discriminate | (split; reflexivity) | (vm_compute; reflexivity)]|].
  split; [first [reflexivity | discriminate | (split; reflexivity) | (vm_compute; reflexivity)]|].
  split; [first [reflexivity | discriminate | (split; reflexivity) | (vm_compute; reflexivity)]|].
  apply (truthy_error_is_reported (E := SmallEngine.engine) (replies (VObject [("error", VBool true); ("analysis", analysis_value SmallEngine.scenario_A)])) (SmallEngine.page "hello") (VObject [("error", VBool true); ("analysis", analysis_value SmallEngine.scenario_A)]));
    first [reflexivity | discriminate | (split; reflexivity) | (vm_compute; reflexivity)].
Defined.

(** A keyword that is an object hiding [toString]: rendering fails. *)
Lemma rendering_completes_iff_witness :
  let kws := [VString "free"; VObject [("toString", VNull)]] in
  let urls := [] : list value in
  let x := VObject [("risk_level", VString "MEDIO"); ("detected_keywords", VArray kws); ("suspicious_urls", VArray urls)] in
  let w := SmallEngine.page "hello" in
  (property x "detected_keywords" = VArray kws)
  /\ (property x "suspicious_urls" = VArray urls)
  /\ (is_normal (fst (displayResults x w))
  = (is_string (property x "risk_level")
     && printable (property x "risk_color")
     && printable (property x "score")
     && forallb printable kws
     && forallb printable urls
     && printable (property x "total_urls"))%bool).
Proof.
  cbv zeta.
  split; [first [reflexivity | discriminate | (split; reflexivity) | (vm_compute; reflexivity)]|].
  split; [first [reflexivity | discriminate | (split; reflexivity) | (vm_compute; reflexivity)]|].
  apply (rendering_completes_iff (E := SmallEngine.engine) (VObject [("risk_level", VString "MEDIO"); ("detected_keywords", VArray ([VString "free"; VObject [("toString", VNull)]])); ("suspicious_urls", VArray ([] : list value))]) ([VString "free"; VObject [("toString", VNull)]]) ([] : list value) (SmallEngine.page "hello"));
    first [reflexivity | discriminate | (split; reflexivity) | (vm_compute; reflexivity)].
Defined.

(** An analysis with the three needed fields only. *)
Lemma missing_fields_print_undefined_witness :
  let rl := "BAJO" in
  let kws := ["free"] in
  let urls := [] : list string in
  let props := [("risk_level", VString rl); ("detected_keywords", VArray (map VString kws)); ("suspicious_urls", VArray (map VString urls))] in
  let w := SmallEngine.page "hello" in
  (own_property "risk_level" props = Some (VString rl))
  /\ (own_property "detected_keywords" props = Some (VArray (map VString kws)))
  /\ (own_property "suspicious_urls" props = Some (VArray (map VString urls)))
  /\ (own_property "risk_color" props = None)
  /\ (own_property "score" props = None)
  /\ (own_property "total_urls" props = None)
  /\ (exists w' alertClass riskIcon advice,
    displayResults (VObject props) w = (Normal tt, w')
    /\ switch_risk_level (VString rl) = (alertClass, riskIcon, advice)
    /\ resultsHeader_className (dom w') = "card-header bg-undefined text-white"
    /\ resultsBody_innerHTML (dom w')
       = body_part_0 ++ alertClass ++ body_part_1 ++ String_toLowerCase rl
         ++ body_part_2 ++ riskIcon ++ body_part_3 ++ rl ++ body_part_4
         ++ "undefined" ++ body_part_5 ++ advice ++ body_part_6
         ++ block keywords_part_0 keywords_part_1 (map badge kws)
         ++ body_part_7
         ++ block urls_part_0 urls_part_1 (map item urls)
         ++ body_part_8 ++ "undefined" ++ body_part_9
    /\ results_style_display (dom w') = "block").
Proof.
  cbv zeta.
  split; [first [reflexivity | discriminate | (split; reflexivity) | (vm_compute; reflexivity)]|].
  split; [first [reflexivity | discriminate | (split; reflexivity) | (vm_compute; reflexivity)]|].
  split; [first [reflexivity | discriminate | (split; reflexivity) | (vm_compute; reflexivity)]|].
  split; [first [reflexivity | discriminate | (split; reflexivity) | (vm_compute; reflexivity)]|].
  split; [first [reflexivity | discriminate | (split; reflexivity) | (vm_compute; reflexivity)]|].
  split; [first [reflexivity | discriminate | (split; reflexivity) | (vm_compute; reflexivity)]|].
  apply (missing_fields_print_undefined (E := SmallEngine.engine) ([("risk_level", VString ("BAJO")); ("detected_keywords", VArray (map VString (["free"]))); ("suspicious_urls", VArray (map VString ([] : list string)))]) ("BAJO") (["free"]) ([] : list string) (SmallEngine.page "hello"));
    first [reflexivity | discriminate | (split; reflexivity) | (vm_compute; reflexivity)].
Defined.

(** An empty analysis, which fails after the header, then scenario B. *)
Lemma displayResults_replaces_witness :
  let x := VObject [] in
  let y := analysis_value SmallEngine.scenario_B in
  let w := SmallEngine.page_after_A "hello" in
  (fst (displayResults y w) = Normal tt)
  /\ (dom (snd (displayResults y (snd (displayResults x w))))
  = dom (snd (displayResults y w))).
Proof.
  cbv zeta.
  split; [first [reflexivity | discriminate | (split; reflexivity) | (vm_compute; reflexivity)]|].
  apply (displayResults_replaces (E := SmallEngine.engine) (VObject []) (analysis_value SmallEngine.scenario_B) (SmallEngine.page_after_A "hello"));
    first [reflexivity | discriminate | (split; reflexivity) | (vm_compute; reflexivity)].
Defined.

(** A rejected request, then the analysis of scenario A. *)
Lemma resubmission_shows_results_witness :
  let a := SmallEngine.scenario_A in
  let data := VObject [("analysis", analysis_value a)] in
  let first := SmallEngine.scenario_D in
  let second := replies data in
  let w := SmallEngine.page "hello" in
  (trimmed_text w <> EmptyString)
  /\ (second "/analyze" (analyze_request (trimmed_text w))
  = Normal {| json := Normal data |})
  /\ (ToBoolean (property data "error") = false)
  /\ (property data "analysis" = analysis_value a)
  /\ (let w1 := snd (analyzeEmail first w) in
  let w2 := snd (analyzeEmail second w1) in
  fst (analyzeEmail second w1) = Normal tt
  /\ resultsBody_innerHTML (dom w2) = analysis_markup a
  /\ resultsHeader_className (dom w2)
     = "card-header bg-" ++ risk_color a ++ " text-white"
  /\ results_style_display (dom w2) = "block"
  /\ button_idle (dom w2)).
Proof.
  cbv zeta.
  split; [first [reflexivity | discriminate | (split; reflexivity) | (vm_compute; reflexivity)]|].
  split; [first [reflexivity | discriminate | (split; reflexivity) | (vm_compute; reflexivity)]|].
  split; [first [reflexivity | discriminate | (split; reflexivity) | (vm_compute; reflexivity)]|].
  split; [first [reflexivity | discriminate | (split; reflexivity) | (vm_compute; reflexivity)]|].
  apply (resubmission_shows_results (E := SmallEngine.engine) (SmallEngine.scenario_D) (replies (VObject [("analysis", analysis_value (SmallEngine.scenario_A))])) (SmallEngine.page "hello") (VObject [("analysis", analysis_value (SmallEngine.scenario_A))]) (SmallEngine.scenario_A));
    first [reflexivity | discriminate | (split; reflexivity) | (vm_compute; reflexivity)].
Defined.


(** An analysis that has a color and nothing else. *)
Lemma failed_rendering_restyles_header_witness :
  let color := "danger" in
  let data := VObject [("analysis", VObject [("risk_color", VString color)])] in
  let net := replies data in
  let w := SmallEngine.page "hello" in
  (trimmed_text w <> EmptyString)
  /\ (net "/analyze" (analyze_request (trimmed_text w))
  = Normal {| json := Normal data |})
  /\ (has_property data "error" = false)
  /\ (is_nullish (property data "analysis") = false)
  /\ (is_string (property (property data "analysis") "risk_level") = false)
  /\ (ToString (property (property data "analysis") "risk_color") = Normal color)
  /\ (exists e w',
    name e = "TypeError"
    /\ analyzeEmail net w = (Normal tt, w')
    /\ trace w'
       = (trace w
          ++ [Assign (Set_analyzeBtn_innerHTML loading_label);
              Assign (Set_analyzeBtn_disabled true);
              Assign (Set_results_style_display "none");
              Fetch "/analyze" (analyze_request (trimmed_text w));
              ResponseJson;
              Assign (Set_resultsHeader_className
                        ("card-header bg-" ++ color ++ " text-white"));
              ConsoleError "Error:" e;
              Alert (error_prefix ++ message e);
              Assign (Set_analyzeBtn_innerHTML idle_label);
              Assign (Set_analyzeBtn_disabled false)])%list
    /\ resultsHeader_className (dom w') = "card-header bg-" ++ color ++ " text-white"
    /\ resultsBody_innerHTML (dom w') = resultsBody_innerHTML (dom w)
    /\ results_style_display (dom w') = "none").
Proof.
  cbv zeta.
  split; [first [reflexivity | discriminate | (split; reflexivity) | (vm_compute; reflexivity)]|].
  split; [first [reflexivity | discriminate | (split; reflexivity) | (vm_compute; reflexivity)]|].
  split; [first [reflexivity | discriminate | (split; reflexivity) | (vm_compute; reflexivity)]|].
  split; [first [reflexivity | discriminate | (split; reflexivity) | (vm_compute; reflexivity)]|].
  split; [first [reflexivity | discriminate | (split; reflexivity) | (vm_compute; reflexivity)]|].
  split; [first [reflexivity | discriminate | (split; reflexivity) | (vm_compute; reflexivity)]|].
  apply (failed_rendering_restyles_header (E := SmallEngine.engine) (replies (VObject [("analysis", VObject [("risk_color", VString ("danger"))])])) (SmallEngine.page "hello") (VObject [("analysis", VObject [("risk_color", VString ("danger"))])]) ("danger"));
    first [reflexivity | discriminate | (split; reflexivity) | (vm_compute; reflexivity)].
Defined.
